(** * Stacko-Robo inventory backend: a shallow embedding of [backend/server.py]

    The handlers of the FastAPI application are embedded as functions in a
    state-and-exception monad over the three MongoDB collections.  Python
    [int] is [Z], Python [float] is the kernel's binary64 [float], [str] is
    [string], a collection is the list of its documents in insertion order.

    What the source draws from its surroundings is made explicit:
    - [uuid.uuid4()], [datetime.now(timezone.utc)] and the salt of
      [pwd_context.hash] are read from an [Env] of oracles, indexed by the
      order of the calls within one request; the [Env] also tells the
      interpreter, whose builtin [sum] over floats changed with CPython 3.12;
    - [os.environ] and the password context are variables of the section.

    The store is seen through its driver: a document is encoded to BSON
    before it is sent, and an integer of more than 64 bits makes the driver
    raise [OverflowError] with nothing written.

    Instants are Unix timestamps in whole seconds, the resolution of the
    [exp] claim of a token; a document's [created_at]/[updated_at] string is
    represented by the instant its ISO-8601 text denotes. *)

From Stdlib Require Import ZArith Floats Lia.
From stdpp Require Import base tactics option list strings pretty.

#[local] Set Warnings "-inexact-float,-register-all".
#[local] Open Scope Z_scope.

(** ** Python values *)

Definition datetime := Z.

(** [timedelta(hours=h)], in seconds. *)
Definition timedelta_hours (h : Z) : Z := h * 3600.

(** [float(n)] for a Python [int]: the nearest binary64, ties to even.
    (Documents read back from the store carry 64-bit integers, far below the
    range where CPython would raise [OverflowError] instead.) *)
Definition float_of_int (n : Z) : float :=
  match n with
  | Z0 => 0%float
  | Zpos p => SF2Prim (binary_normalize prec emax (Zpos p) 0 false)
  | Zneg p => PrimFloat.opp (SF2Prim (binary_normalize prec emax (Zpos p) 0 false))
  end.

(** [n * x] with [n : int] and [x : float]: the int operand is converted. *)
Definition int_mul_float (n : Z) (x : float) : float :=
  PrimFloat.mul (float_of_int n) x.

(** [sum(...)] over ints, left to right from the start value [0]. *)
Definition py_sum_int (xs : list Z) : Z := fold_left Z.add xs 0.

(** Floats added left to right from the start value [0]: what the builtin
    [sum] computes before CPython 3.12, and what a loop of [+=] from [0]
    computes on any interpreter. *)
Definition py_sum_float (xs : list float) : float :=
  fold_left PrimFloat.add xs (float_of_int 0).

(** CPython from 3.12 on: [sum] adds the first float to the start value
    [0], then carries Neumaier's compensation term through the rest and adds
    it at the end when it is finite and not zero. *)
Definition py_sum_float_compensated (xs : list float) : float :=
  match xs with
  | [] => float_of_int 0
  | x :: xs =>
      let '(f_result, c) :=
        fold_left
          (λ '(f_result, c) x,
             let t := PrimFloat.add f_result x in
             (t,
              if PrimFloat.leb (PrimFloat.abs x) (PrimFloat.abs f_result)
              then PrimFloat.add c (PrimFloat.add (PrimFloat.sub f_result t) x)
              else PrimFloat.add c (PrimFloat.add (PrimFloat.sub x t) f_result)))
          xs (PrimFloat.add (float_of_int 0) x, 0%float) in
      if negb (PrimFloat.is_zero c) && PrimFloat.is_finite c
      then PrimFloat.add f_result c
      else f_result
  end.

(** The interpreter the server runs on, as far as the builtin [sum] over
    floats tells them apart. *)
Inductive interpreter :=
| CPython_before_3_12
| CPython_3_12_or_later.

(** [sum(...)] over floats. *)
Definition builtin_sum_float (python : interpreter) (xs : list float) : float :=
  match python with
  | CPython_before_3_12 => py_sum_float xs
  | CPython_3_12_or_later => py_sum_float_compensated xs
  end.


(** Truthiness of the optional query parameters. *)
Definition truthy_str (s : option string) : bool :=
  match s with
  | Some s => negb (String.eqb s "")
  | None => false
  end.

Definition truthy_bool (b : option bool) : bool :=
  match b with
  | Some b => b
  | None => false
  end.

(** ** PyJWT, symbolically

    A bearer credential is either text that is not a JWS at all, or a JWS
    carrying claims under a signature made with some key.  Signatures are
    ideal: one verifies under a key exactly when it was made with it. *)
Module jwt.

Record claims := Claims { sub : option string; exp : option datetime }.

Inductive token :=
| Garbage (raw : string)
| JWS (alg : string) (payload : claims) (key : string).

Inductive error :=
| DecodeError
| InvalidAlgorithmError
| InvalidSignatureError
| ExpiredSignatureError.

Definition encode (payload : claims) (key : string) (algorithm : string) : token :=
  JWS algorithm payload key.

(** [jwt.decode(token, key, algorithms=...)] evaluated at instant [now]:
    structure, then algorithm, then signature, then the registered claims
    ([exp <= now] is expired). *)
Definition decode (t : token) (key : string) (algorithms : list string)
    (now : datetime) : error + claims :=
  match t with
  | Garbage _ => inl DecodeError
  | JWS alg payload k =>
      if negb (existsb (String.eqb alg) algorithms) then inl InvalidAlgorithmError
      else if negb (String.eqb k key) then inl InvalidSignatureError
      else match exp payload with
           | Some e => if e <=? now then inl ExpiredSignatureError else inr payload
           | None => inr payload
           end
  end.

(** The exception classes of the package that [decode] can raise here and
    their bases, each with its instance test ([DecodeError] is the base of
    [InvalidSignatureError], [InvalidTokenError] of all four, [PyJWTError]
    of everything).  The package defines no [JWTError]: that name belongs
    to python-jose, whose [jwt] submodule a plain [import jwt] does not
    load. *)
Definition exception_classes : list (string * (error → bool)) :=
  [ ("PyJWTError", λ _, true);
    ("InvalidTokenError", λ _, true);
    ("DecodeError", λ e, match e with DecodeError | InvalidSignatureError => true | _ => false end);
    ("InvalidSignatureError", λ e, match e with InvalidSignatureError => true | _ => false end);
    ("InvalidAlgorithmError", λ e, match e with InvalidAlgorithmError => true | _ => false end);
    ("ExpiredSignatureError", λ e, match e with ExpiredSignatureError => true | _ => false end) ].

(** Attribute lookup [jwt.<name>] for an exception class. *)
Definition getattr (name : string) : option (error → bool) :=
  snd <$> List.find (λ c, String.eqb (fst c) name) exception_classes.

End jwt.

(** ** Pydantic models and stored documents *)

Module User.
Record t := mk { id : string; email : string; name : string; created_at : datetime }.
End User.

(** A document of [db.users]: [user.model_dump()] plus ["password_hash"]. *)
Module UserDoc.
Record t := mk
  { id : string; email : string; name : string; created_at : datetime;
    password_hash : string }.
End UserDoc.

(** The [User] built from a stored document; [extra="ignore"] drops the
    fields the model does not declare. *)
Definition User_of_doc (d : UserDoc.t) : User.t :=
  User.mk (UserDoc.id d) (UserDoc.email d) (UserDoc.name d) (UserDoc.created_at d).

Module UserCreate.
Record t := mk { email : string; password : string; name : string }.
End UserCreate.

Module UserLogin.
Record t := mk { email : string; password : string }.
End UserLogin.

Module Token.
Record t := mk { access_token : jwt.token; token_type : string; user : User.t }.
End Token.

Module Category.
Record t := mk
  { id : string; name : string; description : option string; created_at : datetime }.
End Category.

Module CategoryCreate.
Record t := mk { name : string; description : option string }.
End CategoryCreate.

Module Product.
Record t := mk
  { id : string; name : string; sku : string; category : string;
    quantity : Z; unit_price : float; reorder_level : Z;
    description : option string; created_at : datetime; updated_at : datetime }.
End Product.

Module ProductCreate.
Record t := mk
  { name : string; sku : string; category : string;
    quantity : Z; unit_price : float; reorder_level : Z;
    description : option string }.

(** Validation of a request body: [reorder_level: int = 10] and
    [description: Optional[str] = None] may be left out. *)
Definition parse (name sku category : string) (quantity : Z) (unit_price : float)
    (reorder_level : option Z) (description : option string) : t :=
  mk name sku category quantity unit_price (default 10 reorder_level) description.
End ProductCreate.

Module ProductUpdate.
Record t := mk
  { name : option string; sku : option string; category : option string;
    quantity : option Z; unit_price : option float; reorder_level : option Z;
    description : option string }.
End ProductUpdate.

Module DashboardStats.
Record t := mk
  { total_products : Z; total_categories : Z; low_stock_count : Z;
    total_stock_value : float; total_quantity : Z }.
End DashboardStats.

Module StockDistribution.
Record t := mk { category : string; count : Z; total_value : float }.
End StockDistribution.

(** ** The database and the handler monad *)

Record DB := mkDB
  { users : list UserDoc.t; categories : list Category.t; products : list Product.t }.

Inductive exception :=
| HTTPException (status_code : Z) (detail : string)
| JWTException (e : jwt.error)
| AttributeError (message : string)
| TypeError (message : string)
| OverflowError.

Inductive outcome (A : Type) :=
| Return (a : A)
| Raise (e : exception).
Arguments Return {A} a.
Arguments Raise {A} e.

Definition handler (A : Type) : Type := DB → outcome A * DB.

#[global] Instance handler_ret : MRet handler := λ A a db, (Return a, db).
#[global] Instance handler_bind : MBind handler := λ A B f m db,
  match m db with
  | (Return a, db') => f a db'
  | (Raise e, db') => (Raise e, db')
  end.

Definition raise {A} (e : exception) : handler A := λ db, (Raise e, db).

(** A computation that does not touch the store. *)
Definition lift {A} (o : outcome A) : handler A := λ db, (o, db).

(** BSON holds integers of at most 64 bits: for a larger one the driver
    raises [OverflowError] while it encodes the document, before anything is
    sent to the store (the text of the error depends on the encoder in use
    and reaches no response). *)
Definition int64 (n : Z) : bool := (- 2 ^ 63 <=? n) && (n <=? 2 ^ 63 - 1).

(** Whether the driver can encode a product document: its two integers. *)
Definition bson_Product (p : Product.t) : bool :=
  int64 (Product.quantity p) && int64 (Product.reorder_level p).

(** A collection of the database: how to read and replace it, and which
    documents the driver can encode (those of users and categories hold
    strings only). *)
Record collection (A : Type) := Collection
  { docs : DB → list A; with_docs : list A → DB → DB; encodes : A → bool }.
Arguments docs {A} c db.
Arguments with_docs {A} c l db.
Arguments encodes {A} c d.

Definition db_users : collection UserDoc.t :=
  Collection _ users (λ l db, mkDB l (categories db) (products db)) (λ _, true).
Definition db_categories : collection Category.t :=
  Collection _ categories (λ l db, mkDB (users db) l (products db)) (λ _, true).
Definition db_products : collection Product.t :=
  Collection _ products (λ l db, mkDB (users db) (categories db) l) bson_Product.

(** The first document matching the filter replaced by its image. *)
Fixpoint update_first {A} (q : A → bool) (f : A → A) (l : list A) : list A :=
  match l with
  | [] => []
  | x :: l' => if q x then f x :: l' else x :: update_first q f l'
  end.

(** The first document matching the filter removed. *)
Fixpoint delete_first {A} (q : A → bool) (l : list A) : list A :=
  match l with
  | [] => []
  | x :: l' => if q x then l' else x :: delete_first q l'
  end.

Section Store.
Context {A : Type} (c : collection A).

(** [find_one(query)]: a query is the test it performs on a document. *)
Definition find_one (query : A → bool) : handler (option A) :=
  λ db, (Return (List.find query (docs c db)), db).

(** [find(query).to_list(n)]. *)
Definition find_to_list (query : A → bool) (n : nat) : handler (list A) :=
  λ db, (Return (take n (List.filter query (docs c db))), db).

(** [insert_one(d)]: the document is encoded, then stored. *)
Definition insert_one (d : A) : handler unit :=
  λ db, if encodes c d then (Return (), with_docs c (docs c db ++ [d]) db)
        else (Raise OverflowError, db).

(** [insert_many(ds)]: the documents are encoded, then stored. *)
Definition insert_many (ds : list A) : handler unit :=
  λ db, if forallb (encodes c) ds then (Return (), with_docs c (docs c db ++ ds) db)
        else (Raise OverflowError, db).

(** [update_one(query, {"$set": ...})], the update given as whether the
    driver can encode it and as its effect on the matched document. *)
Definition update_one (query : A → bool) (update_encodes : bool) (set : A → A)
    : handler unit :=
  λ db, if update_encodes
        then (Return (), with_docs c (update_first query set (docs c db)) db)
        else (Raise OverflowError, db).

(** [delete_one(query)], returning [deleted_count]. *)
Definition delete_one (query : A → bool) : handler Z :=
  λ db, (Return (if List.find query (docs c db) is Some _ then 1 else 0),
         with_docs c (delete_first query (docs c db)) db).

(** [count_documents({})]. *)
Definition count_documents : handler Z :=
  λ db, (Return (Z.of_nat (length (docs c db))), db).
End Store.

(** ** Exceptions inside a handler body *)

Definition outcome_bind {A B} (o : outcome A) (k : A → outcome B) : outcome B :=
  match o with
  | Return a => k a
  | Raise e => Raise e
  end.

Definition of_jwt {A} (r : jwt.error + A) : outcome A :=
  match r with
  | inl e => Raise (JWTException e)
  | inr a => Return a
  end.

(** The [except jwt.<cls>: ...] clauses of a [try], tried in order against
    a raised exception.  Naming the class is an attribute lookup on the
    module, made when the clause is reached: a name the module does not
    define raises [AttributeError] in place of the exception in flight. *)
Fixpoint except_jwt {A} (e : exception) (clauses : list (string * outcome A)) : outcome A :=
  match clauses with
  | [] => Raise e
  | (cls, body) :: rest =>
      match jwt.getattr cls with
      | None => Raise (AttributeError ("module 'jwt' has no attribute '" +:+ cls +:+ "'"))
      | Some isinstance =>
          match e with
          | JWTException je => if isinstance je then body else except_jwt e rest
          | _ => except_jwt e rest
          end
      end
  end.

Definition try_except {A} (body : outcome A) (clauses : list (string * outcome A)) : outcome A :=
  match body with
  | Return a => Return a
  | Raise e => except_jwt e clauses
  end.

(** ** The surroundings of a request *)

Record Env := mkEnv
  { uuid4 : nat → string; utcnow : nat → datetime; gensalt : nat → string;
    python : interpreter }.

(** The oracles as seen after [k] readings of the clock. *)
Definition after_clock (k : nat) (env : Env) : Env :=
  mkEnv (uuid4 env) (λ i, utcnow env (k + i)%nat) (gensalt env) (python env).

(** [CryptContext(schemes=["bcrypt"])]: hashing draws a salt. *)
Record CryptContext := mkCryptContext
  { hash : string → string → string; verify : string → string → bool }.

(** ** The fixed catalog of [seed_data] *)

Definition seed_categories (env : Env) : list Category.t :=
  [ Category.mk (uuid4 env 0) "Electronics" (Some "Electronic devices and accessories") (utcnow env 0);
    Category.mk (uuid4 env 1) "Furniture" (Some "Office and home furniture") (utcnow env 1);
    Category.mk (uuid4 env 2) "Stationery" (Some "Office supplies and stationery") (utcnow env 2);
    Category.mk (uuid4 env 3) "Clothing" (Some "Apparel and accessories") (utcnow env 3);
    Category.mk (uuid4 env 4) "Food & Beverages" (Some "Food items and drinks") (utcnow env 4) ].

Definition seed_products (env : Env) : list Product.t :=
  [ Product.mk (uuid4 env 5) "Laptop Dell XPS 15" "ELEC-001" "Electronics" 25 1299.99 10
      (Some "High-performance laptop") (utcnow env 5) (utcnow env 6);
    Product.mk (uuid4 env 6) "Wireless Mouse" "ELEC-002" "Electronics" 150 29.99 50
      (Some "Ergonomic wireless mouse") (utcnow env 7) (utcnow env 8);
    Product.mk (uuid4 env 7) "Office Chair Premium" "FURN-001" "Furniture" 8 299.99 15
      (Some "Ergonomic office chair") (utcnow env 9) (utcnow env 10);
    Product.mk (uuid4 env 8) "Standing Desk" "FURN-002" "Furniture" 12 499.99 10
      (Some "Adjustable standing desk") (utcnow env 11) (utcnow env 12);
    Product.mk (uuid4 env 9) "Notebook A4" "STAT-001" "Stationery" 500 3.99 100
      (Some "Ruled notebook") (utcnow env 13) (utcnow env 14);
    Product.mk (uuid4 env 10) "Ballpoint Pens (Pack of 10)" "STAT-002" "Stationery" 5 5.99 50
      (Some "Blue ink pens") (utcnow env 15) (utcnow env 16);
    Product.mk (uuid4 env 11) "Business Shirt" "CLTH-001" "Clothing" 45 49.99 20
      (Some "Formal business shirt") (utcnow env 17) (utcnow env 18);
    Product.mk (uuid4 env 12) "Coffee Beans (1kg)" "FOOD-001" "Food & Beverages" 3 24.99 20
      (Some "Premium arabica beans") (utcnow env 19) (utcnow env 20);
    Product.mk (uuid4 env 13) "Bottled Water (24 pack)" "FOOD-002" "Food & Beverages" 80 8.99 30
      (Some "Natural spring water") (utcnow env 21) (utcnow env 22);
    Product.mk (uuid4 env 14) "USB-C Cable" "ELEC-003" "Electronics" 200 12.99 80
      (Some "2m USB-C charging cable") (utcnow env 23) (utcnow env 24) ].

(** ** Helpers of the handlers *)

(** [p["quantity"] <= p["reorder_level"]]. *)
Definition low_stock_p (p : Product.t) : bool :=
  Product.quantity p <=? Product.reorder_level p.

(** The effect of [{"$set": update_data}] on a product: [update_data]
    holds the fields of the patch that are not [None], plus ["updated_at"]. *)
Definition set_update_data (product_data : ProductUpdate.t) (updated_at : datetime)
    (p : Product.t) : Product.t :=
  Product.mk
    (Product.id p)
    (default (Product.name p) (ProductUpdate.name product_data))
    (default (Product.sku p) (ProductUpdate.sku product_data))
    (default (Product.category p) (ProductUpdate.category product_data))
    (default (Product.quantity p) (ProductUpdate.quantity product_data))
    (default (Product.unit_price p) (ProductUpdate.unit_price product_data))
    (default (Product.reorder_level p) (ProductUpdate.reorder_level product_data))
    (match ProductUpdate.description product_data with
     | Some d => Some d
     | None => Product.description p
     end)
    (Product.created_at p)
    updated_at.

(** Whether the driver can encode [{"$set": update_data}]: the integers
    that the patch carries. *)
Definition bson_update_data (product_data : ProductUpdate.t) : bool :=
  from_option int64 true (ProductUpdate.quantity product_data)
  && from_option int64 true (ProductUpdate.reorder_level product_data).

(** The [query] dict of [get_products]: empty, or the category to match
    when the parameter is truthy. *)
Definition products_query (category : option string) : Product.t → bool :=
  if truthy_str category
  then λ p, String.eqb (Product.category p) (default "" category)
  else λ _, true.

(** One round of the loop of [get_stock_distribution] on the dict
    [distribution], kept in insertion order. *)
Fixpoint distribution_add (category : string) (value : float)
    (distribution : list (string * (Z * float))) : list (string * (Z * float)) :=
  match distribution with
  | [] => [(category, (0 + 1, PrimFloat.add (float_of_int 0) value))]
  | (cat, (count, total_value)) :: rest =>
      if String.eqb cat category
      then (cat, (count + 1, PrimFloat.add total_value value)) :: rest
      else (cat, (count, total_value)) :: distribution_add category value rest
  end.

(** ** The handlers *)

Definition JWT_ALGORITHM : string := "HS256".
Definition JWT_EXPIRATION_HOURS : Z := 24.

Section Server.
Variable os_environ : string → option string.
Variable pwd_context : CryptContext.

Definition JWT_SECRET : string :=
  default "stacko-robo-secret-key-2026" (os_environ "JWT_SECRET").

Definition verify_password (plain_password hashed_password : string) : bool :=
  verify pwd_context plain_password hashed_password.

Definition get_password_hash (salt password : string) : string :=
  hash pwd_context salt password.

Definition create_access_token (now : datetime) (data : jwt.claims) : jwt.token :=
  let expire := now + timedelta_hours JWT_EXPIRATION_HOURS in
  let to_encode := jwt.Claims (jwt.sub data) (Some expire) in
  jwt.encode to_encode JWT_SECRET JWT_ALGORITHM.

(** The [try] block of [get_current_user]: the subject of the token. *)
Definition token_subject (now : datetime) (credentials : jwt.token) : outcome string :=
  try_except
    (let token := credentials in
     outcome_bind (of_jwt (jwt.decode token JWT_SECRET [JWT_ALGORITHM] now)) (λ payload,
     match jwt.sub payload with
     | None => Raise (HTTPException 401 "Invalid authentication credentials")
     | Some user_id => Return user_id
     end))
    [ ("ExpiredSignatureError", Raise (HTTPException 401 "Token has expired"));
      ("JWTError", Raise (HTTPException 401 "Could not validate credentials")) ].

Definition get_current_user (env : Env) (credentials : jwt.token) : handler User.t :=
  user_id ← lift (token_subject (utcnow env 0) credentials);
  user ← find_one db_users (λ u, String.eqb (UserDoc.id u) user_id);
  match user with
  | None => raise (HTTPException 401 "User not found")
  | Some user => mret (User_of_doc user)
  end.

Definition register (env : Env) (user_data : UserCreate.t) : handler Token.t :=
  existing_user ← find_one db_users
    (λ u, String.eqb (UserDoc.email u) (UserCreate.email user_data));
  if existing_user is Some _ then raise (HTTPException 400 "Email already registered")
  else
    let user := User.mk (uuid4 env 0) (UserCreate.email user_data)
                  (UserCreate.name user_data) (utcnow env 0) in
    let user_dict :=
      UserDoc.mk (User.id user) (User.email user) (User.name user) (User.created_at user)
        (get_password_hash (gensalt env 0) (UserCreate.password user_data)) in
    insert_one db_users user_dict;;
    let access_token :=
      create_access_token (utcnow env 1) (jwt.Claims (Some (User.id user)) None) in
    mret (Token.mk access_token "bearer" user).

Definition login (env : Env) (credentials : UserLogin.t) : handler Token.t :=
  user ← find_one db_users
    (λ u, String.eqb (UserDoc.email u) (UserLogin.email credentials));
  match user with
  | None => raise (HTTPException 401 "Invalid email or password")
  | Some user =>
      if negb (verify_password (UserLogin.password credentials) (UserDoc.password_hash user))
      then raise (HTTPException 401 "Invalid email or password")
      else
        let user_obj := User_of_doc user in
        let access_token :=
          create_access_token (utcnow env 0) (jwt.Claims (Some (User.id user_obj)) None) in
        mret (Token.mk access_token "bearer" user_obj)
  end.

Definition get_me (current_user : User.t) : handler User.t :=
  mret current_user.

Definition get_categories (current_user : User.t) : handler (list Category.t) :=
  find_to_list db_categories (λ _, true) 1000.

Definition create_category (env : Env) (category_data : CategoryCreate.t)
    (current_user : User.t) : handler Category.t :=
  existing ← find_one db_categories
    (λ c, String.eqb (Category.name c) (CategoryCreate.name category_data));
  if existing is Some _ then raise (HTTPException 400 "Category already exists")
  else
    let category := Category.mk (uuid4 env 0) (CategoryCreate.name category_data)
                      (CategoryCreate.description category_data) (utcnow env 0) in
    insert_one db_categories category;;
    mret category.

Definition get_products (category : option string) (low_stock : option bool)
    (current_user : User.t) : handler (list Product.t) :=
  let query := products_query category in
  products ← find_to_list db_products query 1000;
  let products :=
    if truthy_bool low_stock then List.filter low_stock_p products else products in
  mret products.

Definition create_product (env : Env) (product_data : ProductCreate.t)
    (current_user : User.t) : handler Product.t :=
  existing ← find_one db_products
    (λ p, String.eqb (Product.sku p) (ProductCreate.sku product_data));
  if existing is Some _ then raise (HTTPException 400 "SKU already exists")
  else
    let product :=
      Product.mk (uuid4 env 0)
        (ProductCreate.name product_data) (ProductCreate.sku product_data)
        (ProductCreate.category product_data) (ProductCreate.quantity product_data)
        (ProductCreate.unit_price product_data) (ProductCreate.reorder_level product_data)
        (ProductCreate.description product_data) (utcnow env 0) (utcnow env 1) in
    insert_one db_products product;;
    mret product.

Definition update_product (env : Env) (product_id : string)
    (product_data : ProductUpdate.t) (current_user : User.t) : handler Product.t :=
  existing ← find_one db_products (λ p, String.eqb (Product.id p) product_id);
  match existing with
  | None => raise (HTTPException 404 "Product not found")
  | Some existing =>
      let update_data := set_update_data product_data (utcnow env 0) in
      match ProductUpdate.sku product_data with
      | Some sku =>
          if negb (String.eqb sku (Product.sku existing)) then
            sku_exists ← find_one db_products
              (λ p, String.eqb (Product.sku p) sku
                    && negb (String.eqb (Product.id p) product_id));
            if sku_exists is Some _ then raise (HTTPException 400 "SKU already exists")
            else mret ()
          else mret ()
      | None => mret ()
      end;;
      update_one db_products (λ p, String.eqb (Product.id p) product_id)
        (bson_update_data product_data) update_data;;
      updated_product ← find_one db_products (λ p, String.eqb (Product.id p) product_id);
      match updated_product with
      | Some updated_product => mret updated_product
      | None => raise (TypeError "argument after ** must be a mapping, not NoneType")
      end
  end.

Definition delete_product (product_id : string) (current_user : User.t) : handler string :=
  deleted_count ← delete_one db_products (λ p, String.eqb (Product.id p) product_id);
  if deleted_count =? 0 then raise (HTTPException 404 "Product not found")
  else mret "Product deleted successfully".

Definition get_dashboard_stats (env : Env) (current_user : User.t)
    : handler DashboardStats.t :=
  products ← find_to_list db_products (λ _, true) 1000;
  categories_count ← count_documents db_categories;
  let total_products := Z.of_nat (length products) in
  let low_stock_count := py_sum_int ((λ _, 1) <$> List.filter low_stock_p products) in
  let total_stock_value :=
    builtin_sum_float (python env)
      ((λ p, int_mul_float (Product.quantity p) (Product.unit_price p)) <$> products) in
  let total_quantity := py_sum_int (Product.quantity <$> products) in
  mret (DashboardStats.mk total_products categories_count low_stock_count
          total_stock_value total_quantity).

Definition get_stock_distribution (current_user : User.t)
    : handler (list StockDistribution.t) :=
  products ← find_to_list db_products (λ _, true) 1000;
  let distribution :=
    fold_left
      (λ distribution product,
         distribution_add (Product.category product)
           (int_mul_float (Product.quantity product) (Product.unit_price product))
           distribution)
      products [] in
  mret ((λ '(cat, (count, total_value)), StockDistribution.mk cat count total_value)
          <$> distribution).

Definition seed_data (env : Env) : handler string :=
  existing_categories ← count_documents db_categories;
  if 0 <? existing_categories then mret "Data already seeded"
  else
    insert_many db_categories (seed_categories env);;
    insert_many db_products (seed_products env);;
    mret "Sample data seeded successfully".

End Server.

(** ** Requests and responses

    The router: each route with the parameters FastAPI hands to its
    handler.  A protected route carries the bearer credentials that
    [Depends(get_current_user)] resolves before the handler runs. *)

Inductive json :=
| JNull
| JBool (b : bool)
| JInt (n : Z)
| JFloat (x : float)
| JStr (s : string)
| JDate (t : datetime)
| JJwt (t : jwt.token)
| JArr (items : list json)
| JObj (fields : list (string * json)).

(** Whether an object with the key [k] occurs anywhere in a JSON value. *)
Fixpoint has_key (k : string) (j : json) : bool :=
  match j with
  | JArr items => existsb (has_key k) items
  | JObj fields => existsb (λ kv, String.eqb (fst kv) k || has_key k (snd kv)) fields
  | _ => false
  end.

(** A float in a response: the serializer writes [null] for an infinity
    and for NaN. *)
Definition json_float (x : float) : json :=
  if PrimFloat.is_finite x then JFloat x else JNull.

Definition json_opt_str (s : option string) : json :=
  match s with
  | Some s => JStr s
  | None => JNull
  end.

Definition json_User (u : User.t) : json :=
  JObj [ ("id", JStr (User.id u)); ("email", JStr (User.email u));
         ("name", JStr (User.name u)); ("created_at", JDate (User.created_at u)) ].

Definition json_Token (t : Token.t) : json :=
  JObj [ ("access_token", JJwt (Token.access_token t));
         ("token_type", JStr (Token.token_type t));
         ("user", json_User (Token.user t)) ].

Definition json_Category (c : Category.t) : json :=
  JObj [ ("id", JStr (Category.id c)); ("name", JStr (Category.name c));
         ("description", json_opt_str (Category.description c));
         ("created_at", JDate (Category.created_at c)) ].

Definition json_Product (p : Product.t) : json :=
  JObj [ ("id", JStr (Product.id p)); ("name", JStr (Product.name p));
         ("sku", JStr (Product.sku p)); ("category", JStr (Product.category p));
         ("quantity", JInt (Product.quantity p));
         ("unit_price", json_float (Product.unit_price p));
         ("reorder_level", JInt (Product.reorder_level p));
         ("description", json_opt_str (Product.description p));
         ("created_at", JDate (Product.created_at p));
         ("updated_at", JDate (Product.updated_at p)) ].

Definition json_DashboardStats (s : DashboardStats.t) : json :=
  JObj [ ("total_products", JInt (DashboardStats.total_products s));
         ("total_categories", JInt (DashboardStats.total_categories s));
         ("low_stock_count", JInt (DashboardStats.low_stock_count s));
         ("total_stock_value", json_float (DashboardStats.total_stock_value s));
         ("total_quantity", JInt (DashboardStats.total_quantity s)) ].

Definition json_StockDistribution (d : StockDistribution.t) : json :=
  JObj [ ("category", JStr (StockDistribution.category d));
         ("count", JInt (StockDistribution.count d));
         ("total_value", json_float (StockDistribution.total_value d)) ].

Definition json_message (m : string) : json := JObj [ ("message", JStr m) ].

Record response := Response { status : Z; body : json }.

(** What the framework sends for the outcome of a handler: the rendered
    value, the [detail] of an [HTTPException] under its status code, and a
    bare 500 for any other exception ([OverflowError] included). *)
Definition respond {A} (render : A → json) (o : outcome A) : response :=
  match o with
  | Return a => Response 200 (render a)
  | Raise (HTTPException status_code detail) =>
      Response status_code (JObj [ ("detail", JStr detail) ])
  | Raise _ => Response 500 (JStr "Internal Server Error")
  end.

Inductive request :=
| POST_auth_register (user_data : UserCreate.t)
| POST_auth_login (credentials : UserLogin.t)
| GET_auth_me (bearer : jwt.token)
| GET_categories (bearer : jwt.token)
| POST_categories (bearer : jwt.token) (category_data : CategoryCreate.t)
| GET_products (bearer : jwt.token) (category : option string) (low_stock : option bool)
| POST_products (bearer : jwt.token) (product_data : ProductCreate.t)
| PUT_products (bearer : jwt.token) (product_id : string) (product_data : ProductUpdate.t)
| DELETE_products (bearer : jwt.token) (product_id : string)
| GET_dashboard_stats (bearer : jwt.token)
| GET_dashboard_stock_distribution (bearer : jwt.token)
| POST_seed_data.

Section Router.
Variable os_environ : string → option string.
Variable pwd_context : CryptContext.

(** A handler behind [Depends(get_current_user)]: the guard reads the
    clock once, the handler sees the oracles after that reading. *)
Definition protected {A} (env : Env) (bearer : jwt.token)
    (h : Env → User.t → handler A) : handler A :=
  current_user ← get_current_user os_environ env bearer;
  h (after_clock 1 env) current_user.

Definition run {A} (render : A → json) (h : handler A) (db : DB) : response * DB :=
  let '(o, db') := h db in (respond render o, db').

Definition serve (env : Env) (r : request) : DB → response * DB :=
  match r with
  | POST_auth_register user_data =>
      run json_Token (register os_environ pwd_context env user_data)
  | POST_auth_login credentials =>
      run json_Token (login os_environ pwd_context env credentials)
  | GET_auth_me bearer =>
      run json_User (protected env bearer (λ _, get_me))
  | GET_categories bearer =>
      run (λ l, JArr (json_Category <$> l)) (protected env bearer (λ _, get_categories))
  | POST_categories bearer category_data =>
      run json_Category
        (protected env bearer (λ env, create_category env category_data))
  | GET_products bearer category low_stock =>
      run (λ l, JArr (json_Product <$> l))
        (protected env bearer (λ _, get_products category low_stock))
  | POST_products bearer product_data =>
      run json_Product (protected env bearer (λ env, create_product env product_data))
  | PUT_products bearer product_id product_data =>
      run json_Product
        (protected env bearer (λ env, update_product env product_id product_data))
  | DELETE_products bearer product_id =>
      run json_message (protected env bearer (λ _, delete_product product_id))
  | GET_dashboard_stats bearer =>
      run json_DashboardStats (protected env bearer get_dashboard_stats)
  | GET_dashboard_stock_distribution bearer =>
      run (λ l, JArr (json_StockDistribution <$> l))
        (protected env bearer (λ _, get_stock_distribution))
  | POST_seed_data => run json_message (seed_data env)
  end.
End Router.

(** ** Non-negative stock figures

    The sign conditions of the data model, as a predicate on a stored
    product and on the numeric fields a request carries. *)



(** ** Guarded routes

    The bearer credentials a request carries, when its route is behind
    [Depends(get_current_user)]. *)

Definition request_bearer (r : request) : option jwt.token :=
  match r with
  | POST_auth_register _ | POST_auth_login _ | POST_seed_data => None
  | GET_auth_me bearer
  | GET_categories bearer
  | POST_categories bearer _
  | GET_products bearer _ _
  | POST_products bearer _
  | PUT_products bearer _ _
  | DELETE_products bearer _
  | GET_dashboard_stats bearer
  | GET_dashboard_stock_distribution bearer => Some bearer
  end.

(** The response to an exception, as [respond] gives it for any model. *)
Definition error_response (e : exception) : response :=
  respond (λ _ : unit, JNull) (Raise e).

(** ** Grouping by category

    What [get_stock_distribution] is meant to compute, for comparison with
    its loop. *)

(** [product["category"] == c]. *)
Definition in_category (c : string) (p : Product.t) : bool :=
  String.eqb (Product.category p) c.

(** [product["quantity"] * product["unit_price"]]. *)
Definition stock_value (p : Product.t) : float :=
  int_mul_float (Product.quantity p) (Product.unit_price p).

(** What the loop of [get_stock_distribution] should hold for the category
    [c] after the products [l]: how many of them are in [c], and the sum of
    their stock values. *)
Definition category_entry (l : list Product.t) (c : string) : Z * float :=
  (Z.of_nat (length (List.filter (in_category c) l)),
   py_sum_float (stock_value <$> List.filter (in_category c) l)).

(** The dict [distribution] holds exactly that for the categories of [l]. *)
Definition distribution_of (l : list Product.t) (d : list (string * (Z * float))) : Prop :=
  NoDup (fst <$> d)
  ∧ (∀ c, c ∈ fst <$> d ↔ c ∈ Product.category <$> l)
  ∧ Forall (λ e, snd e = category_entry l (fst e)) d
  ∧ foldr Z.add 0 ((λ e, fst (snd e)) <$> d) = Z.of_nat (length l).

(** ** Stored password hashes

    Two user documents that differ at most in the password hash; and two
    stores, each with its password context, that differ at most in the
    hashes they hold, every pair of corresponding hashes getting the same
    verdict on every password. *)

Definition same_but_hash (u u' : UserDoc.t) : Prop :=
  UserDoc.id u = UserDoc.id u' ∧ UserDoc.email u = UserDoc.email u'
  ∧ UserDoc.name u = UserDoc.name u' ∧ UserDoc.created_at u = UserDoc.created_at u'.

Definition same_up_to_hashes (pwd_context pwd_context' : CryptContext) (db db' : DB) : Prop :=
  Forall2
    (λ u u', same_but_hash u u'
             ∧ ∀ password : string,
                 verify pwd_context password (UserDoc.password_hash u)
                 = verify pwd_context' password (UserDoc.password_hash u'))
    (users db) (users db')
  ∧ categories db = categories db'
  ∧ products db = products db'.

(** ** Fixtures for the examples *)

Definition no_environ : string → option string := λ _, None.

(** A stand-in for bcrypt: the hash is the salt followed by the password,
    and a password verifies when the hash ends with it. *)
Definition toy_context : CryptContext :=
  mkCryptContext
    (λ salt password, salt +:+ password)
    (λ password hashed,
       String.eqb
         (String.substring (String.length hashed - String.length password)
            (String.length password) hashed)
         password).

Definition toy_env : Env :=
  mkEnv (λ n, "uuid-" +:+ pretty n) (λ n, 1700000000 + Z.of_nat n) (λ _, "salt$")
    CPython_3_12_or_later.

Definition empty_db : DB := mkDB [] [] [].

Definition alice : User.t := User.mk "u1" "alice@example.com" "Alice" 1600000000.

Definition alice_doc : UserDoc.t :=
  UserDoc.mk "u1" "alice@example.com" "Alice" 1600000000 "salt$wonderland".

Definition laptop : Product.t :=
  Product.mk "p1" "Laptop" "ELEC-001" "Electronics" 25 1299.99 10 None 1600000000 1600000000.

Definition beans : Product.t :=
  Product.mk "p2" "Coffee Beans" "FOOD-001" "Food" 5 24.99 20 (Some "Arabica")
    1600000001 1600000001.

Definition shop_db : DB := mkDB [alice_doc] [] [laptop; beans].

(** The same stand-in with every hash marked by a leading tilde, and the
    shop with the hash of its user so marked. *)
Definition marked_context : CryptContext :=
  mkCryptContext
    (λ salt password, "~" +:+ hash toy_context salt password)
    (λ password hashed,
       verify toy_context password
         (String.substring 1 (String.length hashed - 1) hashed)).

Definition marked_shop_db : DB :=
  mkDB [UserDoc.mk "u1" "alice@example.com" "Alice" 1600000000 "~salt$wonderland"] []
    [laptop; beans].

(** * Properties *)

(** ** Running a handler *)

Example int64_bounds :
  int64 (- 2 ^ 63) = true ∧ int64 (2 ^ 63 - 1) = true
  ∧ int64 (- 2 ^ 63 - 1) = false ∧ int64 (2 ^ 63) = false.
Proof. done. Qed.

Ltac run_handler :=
  cbv [mbind mret handler_bind handler_ret raise lift
       find_one find_to_list insert_one insert_many update_one delete_one
       count_documents docs with_docs encodes db_users db_categories db_products];
  cbn [users categories products fst snd].

Lemma filter_true {A} (l : list A) : List.filter (λ _, true) l = l.
Proof. induction l as [|x l IH]; cbn; [done | by rewrite IH]. Qed.

Lemma py_sum_int_from (xs : list Z) (a : Z) :
  fold_left Z.add xs a = a + foldr Z.add 0 xs.
Proof.
  revert a. induction xs as [|x xs IH]; intros a; cbn.
  - lia.
  - rewrite IH. lia.
Qed.

Lemma py_sum_int_foldr (xs : list Z) : py_sum_int xs = foldr Z.add 0 xs.
Proof. unfold py_sum_int. by rewrite py_sum_int_from. Qed.

Lemma py_sum_int_ones {A} (l : list A) :
  py_sum_int ((λ _, 1) <$> l) = Z.of_nat (length l).
Proof.
  rewrite py_sum_int_foldr.
  induction l as [|x l IH]; [done |].
  cbn [fmap list_fmap foldr length]. rewrite IH. lia.
Qed.


Lemma elem_of_List_filter {A} (q : A → bool) (l : list A) (x : A) :
  x ∈ List.filter q l ↔ x ∈ l ∧ q x = true.
Proof. rewrite !list_elem_of_In. apply filter_In. Qed.

(** ** Listing products *)

(** C7: with [low_stock=true], [get_products] returns exactly the fetched
    products (those matching the category filter, capped at 1000) whose
    quantity is at most their reorder level: the filter runs over the
    fetched list, after the store query. *)
Theorem get_products_low_stock (category : option string) (current_user : User.t) (db : DB) :
  get_products category (Some true) current_user db
  = (Return (List.filter low_stock_p
               (take 1000 (List.filter (products_query category) (products db)))),
     db)
  ∧ ∀ p : Product.t,
      p ∈ List.filter low_stock_p
            (take 1000 (List.filter (products_query category) (products db)))
      ↔ p ∈ take 1000 (List.filter (products_query category) (products db))
        ∧ Product.quantity p ≤ Product.reorder_level p.
Proof.
  split.
  - unfold get_products. run_handler. done.
  - intros p. rewrite elem_of_List_filter. unfold low_stock_p.
    by rewrite Z.leb_le.
Qed.

(** The cap applies to the store query, the low-stock test to what it
    returned: with 1001 stored products of which only the first is well
    stocked, 999 come back, not the 1000 a store-side filter would give. *)
Example low_stock_filter_is_post_fetch :
  let db := mkDB [] [] (laptop :: replicate 1000 beans) in
  length (match fst (get_products None (Some true) alice db) with
          | Return l => l
          | Raise _ => []
          end) = 999%nat
  ∧ length (take 1000 (List.filter low_stock_p (products db))) = 1000%nat.
Proof. vm_compute. done. Qed.

(** C10: [low_stock=false] behaves as an omitted [low_stock] (no low-stock
    filtering), and [category=""] as an omitted [category] (every product
    matches): both parameters are tested for truthiness. *)
Theorem get_products_falsy_parameters
    (category : option string) (low_stock : option bool) (current_user : User.t) (db : DB) :
  get_products category (Some false) current_user db
  = get_products category None current_user db
  ∧ get_products category (Some false) current_user db
    = (Return (take 1000 (List.filter (products_query category) (products db))), db)
  ∧ get_products (Some "") low_stock current_user db
    = get_products None low_stock current_user db
  ∧ get_products (Some "") None current_user db = (Return (take 1000 (products db)), db).
Proof.
  repeat split; unfold get_products; run_handler; try done.
  unfold products_query. cbn. by rewrite filter_true.
Qed.

(** ** Dashboard statistics *)



(** The two interpreters do not always agree: over the catalog of
    [seed_data] the sum read left to right and the compensated sum differ
    in the last place. *)
Example seed_stock_value_by_interpreter :
  let values :=
    (λ p, int_mul_float (Product.quantity p) (Product.unit_price p))
      <$> seed_products toy_env in
  builtin_sum_float CPython_before_3_12 values = 53064.719999999994%float
  ∧ builtin_sum_float CPython_3_12_or_later values = 53064.72%float.
Proof. vm_compute. done. Qed.

(** ** Seeding *)

Lemma count_positive {A} (l : list A) :
  (0 <? Z.of_nat (length l)) = (if l is [] then false else true).
Proof. destruct l; [done |]. apply Z.ltb_lt. cbn [length]. lia. Qed.

(** C9: when a category exists [seed_data] answers "already seeded" and
    changes nothing; otherwise it inserts the 5 categories and the 10
    products of the catalog; so a second call in sequence is always the
    no-op, and the counts after it are those after the first call. *)
Theorem seed_data_idempotent (env env' : Env) (db : DB) :
  seed_data env db
  = (if categories db is [] then
       (Return "Sample data seeded successfully",
        mkDB (users db) (seed_categories env) (products db ++ seed_products env))
     else (Return "Data already seeded", db))
  ∧ length (seed_categories env) = 5%nat
  ∧ length (seed_products env) = 10%nat
  ∧ seed_data env' (snd (seed_data env db))
    = (Return "Data already seeded", snd (seed_data env db))
  ∧ length (categories (snd (seed_data env' (snd (seed_data env db)))))
    = length (categories (snd (seed_data env db)))
  ∧ length (products (snd (seed_data env' (snd (seed_data env db)))))
    = length (products (snd (seed_data env db))).
Proof.
  assert (Hfirst : seed_data env db
    = (if categories db is [] then
         (Return "Sample data seeded successfully",
          mkDB (users db) (seed_categories env) (products db ++ seed_products env))
       else (Return "Data already seeded", db))).
  { unfold seed_data. run_handler. rewrite count_positive.
    by destruct (categories db) eqn:Hc; cbn; rewrite ?Hc. }
  assert (Hsecond : seed_data env' (snd (seed_data env db))
    = (Return "Data already seeded", snd (seed_data env db))).
  { rewrite Hfirst. unfold seed_data. run_handler. rewrite count_positive.
    by destruct (categories db) as [|c cs] eqn:Hc; cbn; rewrite ?Hc. }
  repeat split; try done; by rewrite Hsecond.
Qed.

Lemma find_Some_split {A} (q : A → bool) (l : list A) (x : A) :
  List.find q l = Some x →
  ∃ l1 l2, l = l1 ++ x :: l2 ∧ Forall (λ y, q y = false) l1 ∧ q x = true.
Proof.
  induction l as [|y l IH]; cbn; [done |].
  destruct (q y) eqn:Hy.
  - intros [= ->]. by exists [], l.
  - intros (l1 & l2 & -> & Hl1 & Hx)%IH.
    exists (y :: l1), l2. by repeat constructor.
Qed.

Lemma find_split_Some {A} (q : A → bool) (l1 l2 : list A) (x : A) :
  Forall (λ y, q y = false) l1 → q x = true → List.find q (l1 ++ x :: l2) = Some x.
Proof.
  intros Hl1 Hx. induction Hl1 as [|y l1 Hy _ IH]; cbn.
  - by rewrite Hx.
  - by rewrite Hy.
Qed.

Lemma update_first_split {A} (q : A → bool) (f : A → A) (l1 l2 : list A) (x : A) :
  Forall (λ y, q y = false) l1 → q x = true →
  update_first q f (l1 ++ x :: l2) = l1 ++ f x :: l2.
Proof.
  intros Hl1 Hx. induction Hl1 as [|y l1 Hy _ IH]; cbn.
  - by rewrite Hx.
  - by rewrite Hy, IH.
Qed.

Lemma find_None_Forall {A} (q : A → bool) (l : list A) :
  List.find q l = None ↔ Forall (λ y, q y = false) l.
Proof.
  induction l as [|y l IH]; cbn.
  - split; [constructor | done].
  - destruct (q y) eqn:Hy.
    + split; [done |]. intros H. inversion H; congruence.
    + rewrite IH. split; [by constructor | by inversion 1].
Qed.

Lemma find_elem_Some {A} (q : A → bool) (l : list A) (x : A) :
  x ∈ l → q x = true → ∃ y, List.find q l = Some y.
Proof.
  intros Hx Hq. destruct (List.find q l) as [y|] eqn:Hf; [by exists y |].
  apply find_None_Forall in Hf. rewrite Forall_forall in Hf.
  specialize (Hf x Hx). congruence.
Qed.

(** ** Products: SKU uniqueness and partial update *)

(** C3: [create_product] raises 400 "SKU already exists" when a stored
    product has the requested SKU; [update_product] raises it when the patch
    carries a SKU other than the product's own that another product (one
    with a different id) has; and when the patch carries the product's own
    current SKU [update_product] raises no SKU error: it returns the updated
    product, with that SKU, whenever the driver can encode the patch (its
    integers fit in 64 bits), and raises [OverflowError] otherwise. *)
Theorem duplicate_sku_rejected (env : Env) (current_user : User.t) (db : DB) :
  (∀ (product_data : ProductCreate.t) (p : Product.t),
     p ∈ products db → Product.sku p = ProductCreate.sku product_data →
     create_product env product_data current_user db
     = (Raise (HTTPException 400 "SKU already exists"), db))
  ∧ (∀ (product_id : string) (product_data : ProductUpdate.t)
       (existing other : Product.t) (sku : string),
       List.find (λ p, String.eqb (Product.id p) product_id) (products db) = Some existing →
       ProductUpdate.sku product_data = Some sku →
       sku ≠ Product.sku existing →
       other ∈ products db → Product.id other ≠ product_id → Product.sku other = sku →
       update_product env product_id product_data current_user db
       = (Raise (HTTPException 400 "SKU already exists"), db))
  ∧ (∀ (product_id : string) (product_data : ProductUpdate.t) (existing : Product.t),
       List.find (λ p, String.eqb (Product.id p) product_id) (products db) = Some existing →
       ProductUpdate.sku product_data = Some (Product.sku existing) →
       fst (update_product env product_id product_data current_user db)
       ≠ Raise (HTTPException 400 "SKU already exists")
       ∧ (bson_update_data product_data = true →
          ∃ (updated : Product.t) (db' : DB),
            update_product env product_id product_data current_user db
            = (Return updated, db')
            ∧ Product.sku updated = Product.sku existing)
       ∧ (bson_update_data product_data = false →
          update_product env product_id product_data current_user db
          = (Raise OverflowError, db))).
Proof.
  split; [|split].
  - intros product_data p Hp Hsku.
    unfold create_product. run_handler.
    destruct (find_elem_Some
                (λ p, String.eqb (Product.sku p) (ProductCreate.sku product_data))
                (products db) p Hp) as [y ->]; [by apply String.eqb_eq | done].
  - intros product_id product_data existing other sku Hfind Hpatch Hne Hother Hid Hsku.
    unfold update_product. run_handler. rewrite Hfind, Hpatch.
    apply String.eqb_neq in Hne. rewrite Hne. cbn [negb].
    destruct (find_elem_Some
                (λ p, String.eqb (Product.sku p) sku
                      && negb (String.eqb (Product.id p) product_id))
                (products db) other Hother) as [y ->]; [| done].
    apply andb_true_intro. split; [by apply String.eqb_eq |].
    apply negb_true_iff. by apply String.eqb_neq.
  - intros product_id product_data existing Hfind Hpatch.
    destruct (find_Some_split _ _ _ Hfind) as (l1 & l2 & Hl & Hl1 & Hx).
    assert (Hrun :
      update_product env product_id product_data current_user db
      = if bson_update_data product_data
        then (Return (set_update_data product_data (utcnow env 0) existing),
              mkDB (users db) (categories db)
                (l1 ++ set_update_data product_data (utcnow env 0) existing :: l2))
        else (Raise OverflowError, db)).
    { unfold update_product. run_handler. rewrite Hfind, Hpatch.
      rewrite String.eqb_refl. cbn [negb].
      destruct (bson_update_data product_data); [| done]. cbn [products].
      rewrite Hl, (update_first_split _ _ l1 l2 existing Hl1 Hx).
      by rewrite (find_split_Some _ l1 l2); [| done | by cbn]. }
    rewrite Hrun. split; [by destruct (bson_update_data product_data) |]. split.
    + intros ->. do 2 eexists. split; [done |]. cbn. by rewrite Hpatch.
    + by intros ->.
Qed.

Lemma duplicate_sku_rejected_witness :
  create_product toy_env
    (ProductCreate.parse "Tablet" "ELEC-001" "Electronics" 3 199 None None) alice shop_db
  = (Raise (HTTPException 400 "SKU already exists"), shop_db)
  ∧ update_product toy_env "p1"
      (ProductUpdate.mk None (Some "FOOD-001") None None None None None) alice shop_db
    = (Raise (HTTPException 400 "SKU already exists"), shop_db)
  ∧ (∃ (updated : Product.t) (db' : DB),
       update_product toy_env "p1"
         (ProductUpdate.mk None (Some "ELEC-001") None (Some 7) None None None) alice shop_db
       = (Return updated, db')
       ∧ Product.sku updated = "ELEC-001")
  ∧ update_product toy_env "p1"
      (ProductUpdate.mk None (Some "ELEC-001") None (Some (2 ^ 63)) None None None)
      alice shop_db
    = (Raise OverflowError, shop_db).
Proof.
  destruct (duplicate_sku_rejected toy_env alice shop_db) as (Hcreate & Hclash & Hown).
  split; [| split; [| split]].
  - apply (Hcreate _ laptop); [by left | reflexivity].
  - apply (Hclash "p1" _ laptop beans "FOOD-001");
      [reflexivity | reflexivity | discriminate | by right; left | discriminate | reflexivity].
  - apply (Hown "p1" _ laptop); reflexivity.
  - apply (Hown "p1" _ laptop); reflexivity.
Defined.

(** C2, as the code has it: for an existing product and a patch that
    passes the SKU check and that the driver can encode (its integers fit
    in 64 bits), [update_product] returns and stores the product with
    exactly the fields present in the patch replaced and [updated_at] set to
    the current time; every absent field, the id and [created_at] keep
    their value; the documents before and after it, and the other
    collections, are as they were.  A patch that passes the SKU check but
    cannot be encoded raises [OverflowError]; and a patch that is refused,
    for either reason, changes nothing, the timestamp included. *)
Theorem update_product_frame (env : Env) (product_id : string)
    (product_data : ProductUpdate.t) (current_user : User.t) (db : DB) (old : Product.t) :
  List.find (λ p, String.eqb (Product.id p) product_id) (products db) = Some old →
  ((∀ (sku : string) (other : Product.t),
      ProductUpdate.sku product_data = Some sku → sku ≠ Product.sku old →
      other ∈ products db → Product.id other ≠ product_id → Product.sku other ≠ sku) →
   (bson_update_data product_data = true →
    ∃ (before after : list Product.t) (new : Product.t),
      products db = before ++ old :: after
      ∧ Forall (λ p, Product.id p ≠ product_id) before
      ∧ update_product env product_id product_data current_user db
        = (Return new, mkDB (users db) (categories db) (before ++ new :: after))
      ∧ Product.id new = Product.id old
      ∧ Product.created_at new = Product.created_at old
      ∧ Product.updated_at new = utcnow env 0
      ∧ Product.name new = default (Product.name old) (ProductUpdate.name product_data)
      ∧ Product.sku new = default (Product.sku old) (ProductUpdate.sku product_data)
      ∧ Product.category new
        = default (Product.category old) (ProductUpdate.category product_data)
      ∧ Product.quantity new
        = default (Product.quantity old) (ProductUpdate.quantity product_data)
      ∧ Product.unit_price new
        = default (Product.unit_price old) (ProductUpdate.unit_price product_data)
      ∧ Product.reorder_level new
        = default (Product.reorder_level old) (ProductUpdate.reorder_level product_data)
      ∧ Product.description new
        = (if ProductUpdate.description product_data is Some d then Some d
           else Product.description old))
   ∧ (bson_update_data product_data = false →
      update_product env product_id product_data current_user db
      = (Raise OverflowError, db)))
  ∧ (∀ (e : exception) (db' : DB),
       update_product env product_id product_data current_user db = (Raise e, db') →
       (e = HTTPException 400 "SKU already exists"
        ∨ e = OverflowError)
       ∧ db' = db).
Proof.
  intros Hfind.
  destruct (find_Some_split _ _ _ Hfind) as (before & after & Hl & Hbefore & Hold).
  assert (Hstored :
    List.find (λ p, String.eqb (Product.id p) product_id)
      (update_first (λ p, String.eqb (Product.id p) product_id)
         (set_update_data product_data (utcnow env 0)) (products db))
    = Some (set_update_data product_data (utcnow env 0) old)
    ∧ update_first (λ p, String.eqb (Product.id p) product_id)
        (set_update_data product_data (utcnow env 0)) (products db)
      = before ++ set_update_data product_data (utcnow env 0) old :: after).
  { rewrite Hl, (update_first_split _ _ before after old Hbefore Hold).
    split; [| done]. by apply find_split_Some. }
  destruct Hstored as [Hrefetch Hupdated].
  split.
  - intros Hfree.
    assert (Hcheck :
      ∀ sku, ProductUpdate.sku product_data = Some sku →
             negb (String.eqb sku (Product.sku old)) = true →
             List.find (λ p, String.eqb (Product.sku p) sku
                             && negb (String.eqb (Product.id p) product_id)) (products db)
             = None).
    { intros sku Hsku Hne. apply find_None_Forall, Forall_forall. intros other Hother.
      apply negb_true_iff, String.eqb_neq in Hne.
      destruct (String.eqb (Product.id other) product_id) eqn:Hid;
        [by rewrite andb_false_r |].
      apply String.eqb_neq in Hid.
      rewrite andb_true_r. apply String.eqb_neq. by eapply Hfree. }
    split.
    + intros Hbson.
      exists before, after, (set_update_data product_data (utcnow env 0) old).
      split; [done |]. split.
      { eapply Forall_impl; [exact Hbefore |]. intros p Hp. by apply String.eqb_neq. }
      split; [| by repeat split].
      unfold update_product. run_handler. rewrite Hfind, Hbson.
      destruct (ProductUpdate.sku product_data) as [sku|] eqn:Hsku;
        [destruct (negb (String.eqb sku (Product.sku old))) eqn:Hne;
           [rewrite (Hcheck sku eq_refl Hne) |] |];
        cbn [products]; by rewrite Hrefetch, Hupdated.
    + intros Hbson. unfold update_product. run_handler. rewrite Hfind, Hbson.
      destruct (ProductUpdate.sku product_data) as [sku|] eqn:Hsku;
        [destruct (negb (String.eqb sku (Product.sku old))) eqn:Hne;
           [rewrite (Hcheck sku eq_refl Hne) |] |];
        done.
  - intros e db'. unfold update_product. run_handler. rewrite Hfind.
    destruct (ProductUpdate.sku product_data) as [sku|];
      [destruct (negb (String.eqb sku (Product.sku old)));
         [destruct (List.find (λ p, String.eqb (Product.sku p) sku && _) (products db));
            [intros [= <- <-]; split; [by left | done] |] |] |];
      (destruct (bson_update_data product_data);
         [cbn [products]; by rewrite Hrefetch
         | intros [= <- <-]; split; [by right | done]]).
Qed.

Lemma update_product_frame_witness :
  (∃ (before after : list Product.t) (new : Product.t),
     products shop_db = before ++ laptop :: after
     ∧ update_product toy_env "p1"
         (ProductUpdate.mk None (Some "ELEC-009") None (Some 7) None None None) alice shop_db
       = (Return new, mkDB (users shop_db) (categories shop_db) (before ++ new :: after))
     ∧ Product.sku new = "ELEC-009"
     ∧ Product.quantity new = 7
     ∧ Product.name new = "Laptop"
     ∧ Product.updated_at new = 1700000000)
  ∧ update_product toy_env "p1"
      (ProductUpdate.mk None None None None None (Some (- 2 ^ 63 - 1)) None) alice shop_db
    = (Raise OverflowError, shop_db).
Proof.
  split.
  - destruct (update_product_frame toy_env "p1"
                (ProductUpdate.mk None (Some "ELEC-009") None (Some 7) None None None)
                alice shop_db laptop eq_refl) as [Hframe _].
    destruct Hframe as [Hframe _].
    + intros sku other [= <-] _ Hother Hid.
      apply list_elem_of_In in Hother. destruct Hother as [<- | [<- | []]].
      * by destruct Hid.
      * discriminate.
    + destruct (Hframe eq_refl)
        as (before & after & new & Hl & _ & Hrun & _ & _ & Hat & Hname & Hsku & _ & Hqty & _).
      exists before, after, new. by repeat split.
  - destruct (update_product_frame toy_env "p1"
                (ProductUpdate.mk None None None None None (Some (- 2 ^ 63 - 1)) None)
                alice shop_db laptop eq_refl) as [Hframe _].
    destruct Hframe as [_ Hoverflow]; [by intros sku other [=] | by apply Hoverflow].
Defined.

(** C2 as stated fails for a patch that the SKU check refuses: the laptop
    keeps its quantity and its [updated_at] although the patch carries a
    quantity, and the current time is another. *)
Lemma refused_patch_changes_nothing :
  List.find (λ p, String.eqb (Product.id p) "p1") (products shop_db) = Some laptop
  ∧ update_product toy_env "p1"
      (ProductUpdate.mk None (Some "FOOD-001") None (Some 7) None None None) alice shop_db
    = (Raise (HTTPException 400 "SKU already exists"), shop_db)
  ∧ Product.quantity laptop = 25
  ∧ Product.updated_at laptop = 1600000000
  ∧ utcnow toy_env 0 = 1700000000.
Proof. by repeat split. Qed.

(** ** Authentication, registration and the stock invariant *)

Lemma find_no_match {A} (q : A → bool) (l : list A) :
  (∀ x, x ∈ l → q x = false) → List.find q l = None.
Proof. intros H. by apply find_None_Forall, Forall_forall. Qed.

(** No renderer of a response model writes a ["password_hash"] key. *)
Lemma has_key_JArr {A} (k : string) (render : A → json) (l : list A) :
  (∀ a, has_key k (render a) = false) → has_key k (JArr (render <$> l)) = false.
Proof.
  intros Hrender. cbn [has_key].
  induction l as [|a l IH]; [done |].
  cbn [fmap list_fmap existsb]. by rewrite Hrender, IH.
Qed.

Lemma json_User_no_hash (u : User.t) : has_key "password_hash" (json_User u) = false.
Proof. reflexivity. Qed.
Lemma json_Token_no_hash (t : Token.t) : has_key "password_hash" (json_Token t) = false.
Proof. reflexivity. Qed.
Lemma json_Category_no_hash (c : Category.t) : has_key "password_hash" (json_Category c) = false.
Proof. unfold json_Category. by destruct (Category.description c). Qed.
Lemma json_Product_no_hash (p : Product.t) : has_key "password_hash" (json_Product p) = false.
Proof.
  unfold json_Product, json_float.
  by destruct (Product.description p), (PrimFloat.is_finite (Product.unit_price p)).
Qed.
Lemma json_DashboardStats_no_hash (s : DashboardStats.t) :
  has_key "password_hash" (json_DashboardStats s) = false.
Proof. unfold json_DashboardStats, json_float. by destruct (PrimFloat.is_finite _). Qed.
Lemma json_StockDistribution_no_hash (d : StockDistribution.t) :
  has_key "password_hash" (json_StockDistribution d) = false.
Proof. unfold json_StockDistribution, json_float. by destruct (PrimFloat.is_finite _). Qed.
Lemma json_message_no_hash (m : string) : has_key "password_hash" (json_message m) = false.
Proof. reflexivity. Qed.

Lemma respond_no_hash {A} (render : A → json) (o : outcome A) :
  (∀ a, has_key "password_hash" (render a) = false) →
  has_key "password_hash" (body (respond render o)) = false.
Proof. intros Hrender. destruct o as [a | []]; cbn; [apply Hrender | done..]. Qed.

Lemma run_no_hash {A} (render : A → json) (h : handler A) (db : DB) :
  (∀ a, has_key "password_hash" (render a) = false) →
  has_key "password_hash" (body (fst (run render h db))) = false.
Proof.
  intros Hrender. unfold run. destruct (h db) as [o db']. cbn [fst].
  by apply respond_no_hash.
Qed.





(** ** Responses and the stored hashes *)

Lemma find_related {A} (R : A → A → Prop) (q q' : A → bool) (l l' : list A) :
  Forall2 R l l' → (∀ x x', R x x' → q x = q' x') →
  match List.find q l, List.find q' l' with
  | Some x, Some x' => R x x'
  | None, None => True
  | _, _ => False
  end.
Proof.
  intros Hl Hq. induction Hl as [|x x' l l' Hx _ IH]; cbn; [done |].
  rewrite (Hq x x' Hx). by destruct (q' x').
Qed.

Lemma User_of_doc_same (u u' : UserDoc.t) :
  same_but_hash u u' → User_of_doc u = User_of_doc u'.
Proof. intros (Hid & Hemail & Hname & Hat). unfold User_of_doc. congruence. Qed.

Lemma fst_run {A} (render : A → json) (h : handler A) (db : DB) :
  fst (run render h db) = respond render (fst (h db)).
Proof. unfold run. by destruct (h db). Qed.

Ltac same_store :=
  run_handler;
  repeat (match goal with
          | |- context [List.find ?q ?l] => destruct (List.find q l)
          | |- context [bson_Product ?p] => destruct (bson_Product p)
          | |- context [bson_update_data ?d] => destruct (bson_update_data d)
          | |- context [negb ?b] => destruct (negb b)
          | |- context [0 <? ?n] => destruct (0 <? n)
          end;
          cbn [users categories products fst snd]);
  try done.

(** The handlers behind the guard, and [seed_data], do not read the users. *)
Lemma handlers_ignore_users (db db' : DB) :
  categories db = categories db' → products db = products db' →
  (∀ u, fst (get_me u db) = fst (get_me u db'))
  ∧ (∀ u, fst (get_categories u db) = fst (get_categories u db'))
  ∧ (∀ env d u, fst (create_category env d u db) = fst (create_category env d u db'))
  ∧ (∀ c l u, fst (get_products c l u db) = fst (get_products c l u db'))
  ∧ (∀ env d u, fst (create_product env d u db) = fst (create_product env d u db'))
  ∧ (∀ env i d u, fst (update_product env i d u db) = fst (update_product env i d u db'))
  ∧ (∀ i u, fst (delete_product i u db) = fst (delete_product i u db'))
  ∧ (∀ env u, fst (get_dashboard_stats env u db) = fst (get_dashboard_stats env u db'))
  ∧ (∀ u, fst (get_stock_distribution u db) = fst (get_stock_distribution u db'))
  ∧ (∀ env, fst (seed_data env db) = fst (seed_data env db')).
Proof.
  destruct db as [us cs ps], db' as [us' cs' ps']. cbn [categories products].
  intros <- <-. repeat match goal with |- _ ∧ _ => split end.
  - intros u. reflexivity.
  - intros u. unfold get_categories. by same_store.
  - intros env d u. unfold create_category. by same_store.
  - intros c l u. unfold get_products. by same_store.
  - intros env d u. unfold create_product. by same_store.
  - intros env i d u. unfold update_product. run_handler.
    destruct (List.find _ ps) as [existing|]; [| done].
    destruct (ProductUpdate.sku d) as [sku|];
      [destruct (negb (String.eqb sku (Product.sku existing)));
         [cbn [products]; destruct (List.find _ ps); [done |] |] |];
      (destruct (bson_update_data d); [| done]);
      cbn; by destruct (List.find _ (update_first _ _ _)).
  - intros i u. unfold delete_product. by same_store.
  - intros env u. unfold get_dashboard_stats. by same_store.
  - intros u. unfold get_stock_distribution. by same_store.
  - intros env. unfold seed_data. run_handler.
    destruct (0 <? _); [done |]. cbn. done.
Qed.

Section Hashes.
Variable os_environ : string → option string.
Variables pwd_context pwd_context' : CryptContext.
Variables db db' : DB.
Hypothesis Hsame : same_up_to_hashes pwd_context pwd_context' db db'.

Lemma register_same (env : Env) (user_data : UserCreate.t) :
  fst (register os_environ pwd_context env user_data db)
  = fst (register os_environ pwd_context' env user_data db').
Proof.
  destruct Hsame as (Husers & _ & _).
  pose proof (find_related _
                (λ u, String.eqb (UserDoc.email u) (UserCreate.email user_data))
                (λ u, String.eqb (UserDoc.email u) (UserCreate.email user_data))
                _ _ Husers) as Hfind.
  unfold register. run_handler.
  destruct (List.find _ (users db)), (List.find _ (users db')); try done.
  - destruct Hfind. by intros x x' [(_ & -> & _) _].
  - destruct Hfind. by intros x x' [(_ & -> & _) _].
Qed.

Lemma login_same (env : Env) (credentials : UserLogin.t) :
  fst (login os_environ pwd_context env credentials db)
  = fst (login os_environ pwd_context' env credentials db').
Proof.
  destruct Hsame as (Husers & _ & _).
  pose proof (find_related _
                (λ u, String.eqb (UserDoc.email u) (UserLogin.email credentials))
                (λ u, String.eqb (UserDoc.email u) (UserLogin.email credentials))
                _ _ Husers) as Hfind.
  unfold login, verify_password. run_handler.
  destruct (List.find _ (users db)) as [u|], (List.find _ (users db')) as [u'|].
  - destruct Hfind as [Hu Hverify]; [by intros x x' [(_ & -> & _) _] |].
    rewrite Hverify, (User_of_doc_same u u' Hu).
    by destruct (negb _).
  - destruct Hfind. by intros x x' [(_ & -> & _) _].
  - destruct Hfind. by intros x x' [(_ & -> & _) _].
  - done.
Qed.

Lemma protected_same {A} (env : Env) (bearer : jwt.token)
    (h : Env → User.t → handler A) :
  (∀ env u, fst (h env u db) = fst (h env u db')) →
  fst (protected os_environ env bearer h db)
  = fst (protected os_environ env bearer h db').
Proof.
  intros Hh. destruct Hsame as (Husers & _ & _).
  unfold protected, get_current_user. run_handler.
  destruct (token_subject os_environ (utcnow env 0) bearer) as [user_id | e]; [| done].
  pose proof (find_related _
                (λ u, String.eqb (UserDoc.id u) user_id)
                (λ u, String.eqb (UserDoc.id u) user_id)
                _ _ Husers) as Hfind.
  destruct (List.find _ (users db)) as [u|], (List.find _ (users db')) as [u'|].
  - destruct Hfind as [Hu _]; [by intros x x' [(-> & _) _] |].
    rewrite (User_of_doc_same u u' Hu). apply Hh.
  - destruct Hfind. by intros x x' [(-> & _) _].
  - destruct Hfind. by intros x x' [(-> & _) _].
  - done.
Qed.

Lemma serve_same (env : Env) (r : request) :
  fst (serve os_environ pwd_context env r db)
  = fst (serve os_environ pwd_context' env r db').
Proof.
  destruct (handlers_ignore_users db db')
    as (Hme & Hcats & Hcat & Hlist & Hcreate & Hupdate & Hdelete & Hstats & Hdist & Hseed);
    [apply Hsame.. |].
  destruct r; cbn [serve]; rewrite !fst_run; f_equal;
    first [ apply register_same | apply login_same | apply Hseed
          | apply protected_same; auto ].
Qed.
End Hashes.

Section Application.
Variable os_environ : string → option string.
Variable pwd_context : CryptContext.

(** C4: [login] raises the one exception 401 "Invalid email or password"
    both when no user has the email and when the password does not verify
    against the stored hash, leaving the store as it was, so the two causes
    give the same response; when the user exists and the password verifies
    it returns a bearer token for that user together with the user. *)
Theorem login_invalid_credentials (env : Env) (credentials : UserLogin.t) (db : DB) :
  ((∀ u, u ∈ users db → UserDoc.email u ≠ UserLogin.email credentials) →
   login os_environ pwd_context env credentials db
   = (Raise (HTTPException 401 "Invalid email or password"), db))
  ∧ (∀ user : UserDoc.t,
       List.find (λ u, String.eqb (UserDoc.email u) (UserLogin.email credentials)) (users db)
       = Some user →
       verify pwd_context (UserLogin.password credentials) (UserDoc.password_hash user)
       = false →
       login os_environ pwd_context env credentials db
       = (Raise (HTTPException 401 "Invalid email or password"), db))
  ∧ (∀ user : UserDoc.t,
       List.find (λ u, String.eqb (UserDoc.email u) (UserLogin.email credentials)) (users db)
       = Some user →
       verify pwd_context (UserLogin.password credentials) (UserDoc.password_hash user)
       = true →
       login os_environ pwd_context env credentials db
       = (Return
            (Token.mk
               (create_access_token os_environ (utcnow env 0)
                  (jwt.Claims (Some (UserDoc.id user)) None))
               "bearer" (User_of_doc user)),
          db))
  ∧ (∀ (e : exception) (db' : DB),
       login os_environ pwd_context env credentials db = (Raise e, db') →
       e = HTTPException 401 "Invalid email or password" ∧ db' = db).
Proof.
  split; [| split; [| split]].
  - intros Habsent. unfold login. run_handler.
    rewrite find_no_match; [done |].
    intros u Hu. by apply String.eqb_neq, Habsent.
  - intros user Hfind Hverify. unfold login, verify_password. run_handler.
    by rewrite Hfind, Hverify.
  - intros user Hfind Hverify. unfold login, verify_password. run_handler.
    by rewrite Hfind, Hverify.
  - intros e db'. unfold login. run_handler.
    destruct (List.find _ (users db)) as [user|]; [| by intros [= <- <-]].
    destruct (negb _); by intros [= <- <-].
Qed.
(** C5: [register] raises 400 "Email already registered" and leaves the
    store unchanged when a user has the email, so a second registration
    with the same email is refused; otherwise it appends the user document
    with the password hash and returns a token and the user; and no response
    of any route includes a password hash: the response to a request is the
    same on two stores, each with its password context, that differ only
    in the hashes they hold and how they are made (corresponding hashes
    getting the same verdict from [verify]), and no response carries a
    ["password_hash"] key. *)
Theorem register_duplicate_email (env env' : Env) (user_data user_data' : UserCreate.t)
    (db : DB) :
  (∀ u : UserDoc.t,
     u ∈ users db → UserDoc.email u = UserCreate.email user_data →
     register os_environ pwd_context env user_data db
     = (Raise (HTTPException 400 "Email already registered"), db))
  ∧ ((∀ u : UserDoc.t, u ∈ users db → UserDoc.email u ≠ UserCreate.email user_data) →
     register os_environ pwd_context env user_data db
     = (Return
          (Token.mk
             (create_access_token os_environ (utcnow env 1)
                (jwt.Claims (Some (uuid4 env 0)) None))
             "bearer"
             (User.mk (uuid4 env 0) (UserCreate.email user_data)
                (UserCreate.name user_data) (utcnow env 0))),
        mkDB
          (users db
           ++ [UserDoc.mk (uuid4 env 0) (UserCreate.email user_data)
                 (UserCreate.name user_data) (utcnow env 0)
                 (hash pwd_context (gensalt env 0) (UserCreate.password user_data))])
          (categories db) (products db)))
  ∧ (UserCreate.email user_data' = UserCreate.email user_data →
     register os_environ pwd_context env' user_data'
       (snd (register os_environ pwd_context env user_data db))
     = (Raise (HTTPException 400 "Email already registered"),
        snd (register os_environ pwd_context env user_data db)))
  ∧ (∀ (pwd_context' : CryptContext) (r : request) (db' : DB),
       same_up_to_hashes pwd_context pwd_context' db db' →
       fst (serve os_environ pwd_context env r db)
       = fst (serve os_environ pwd_context' env r db'))
  ∧ (∀ r : request,
       has_key "password_hash" (body (fst (serve os_environ pwd_context env r db))) = false).
Proof.
  assert (Hdup : ∀ (e : Env) (d : UserCreate.t) (s : DB) (u : UserDoc.t),
            u ∈ users s → UserDoc.email u = UserCreate.email d →
            register os_environ pwd_context e d s
            = (Raise (HTTPException 400 "Email already registered"), s)).
  { intros e d s u Hu Hemail. unfold register. run_handler.
    destruct (find_elem_Some (λ u, String.eqb (UserDoc.email u) (UserCreate.email d))
                (users s) u Hu) as [y ->]; [by apply String.eqb_eq | done]. }
  assert (Hnew : (∀ u : UserDoc.t, u ∈ users db → UserDoc.email u ≠ UserCreate.email user_data) →
     register os_environ pwd_context env user_data db
     = (Return
          (Token.mk
             (create_access_token os_environ (utcnow env 1)
                (jwt.Claims (Some (uuid4 env 0)) None))
             "bearer"
             (User.mk (uuid4 env 0) (UserCreate.email user_data)
                (UserCreate.name user_data) (utcnow env 0))),
        mkDB
          (users db
           ++ [UserDoc.mk (uuid4 env 0) (UserCreate.email user_data)
                 (UserCreate.name user_data) (utcnow env 0)
                 (hash pwd_context (gensalt env 0) (UserCreate.password user_data))])
          (categories db) (products db))).
  { intros Habsent. unfold register, get_password_hash. run_handler.
    rewrite find_no_match; [done |].
    intros u Hu. by apply String.eqb_neq, Habsent. }
  split; [by apply Hdup |]. split; [done |]. split.
  - intros Hsame.
    destruct (List.find (λ u, String.eqb (UserDoc.email u) (UserCreate.email user_data))
                (users db)) as [u|] eqn:Hfind.
    + apply find_some in Hfind as [Hu Hemail].
      apply list_elem_of_In in Hu. apply String.eqb_eq in Hemail.
      rewrite (Hdup env user_data db u Hu Hemail). cbn [snd].
      apply (Hdup env' user_data' db u Hu). congruence.
    + rewrite Hnew.
      2:{ intros u Hu. apply String.eqb_neq.
          apply find_None_Forall in Hfind. rewrite Forall_forall in Hfind. by apply Hfind. }
      cbn [snd]. eapply Hdup.
      * cbn [users]. apply elem_of_app. right. by left.
      * cbn. by rewrite Hsame.
  - split; [intros pwd_context' r db' Hhashes; by apply serve_same |].
    intros r. destruct r; cbn [serve]; apply run_no_hash;
      try (intros l; apply has_key_JArr);
      first [ apply json_Token_no_hash | apply json_User_no_hash
            | apply json_Category_no_hash | apply json_Product_no_hash
            | apply json_DashboardStats_no_hash | apply json_StockDistribution_no_hash
            | apply json_message_no_hash ].
Qed.
Lemma decode_issued (issued now : datetime) (user_id : string) :
  jwt.decode (create_access_token os_environ issued (jwt.Claims (Some user_id) None))
    (JWT_SECRET os_environ) [JWT_ALGORITHM] now
  = if issued + 24 * 3600 <=? now then inl jwt.ExpiredSignatureError
    else inr (jwt.Claims (Some user_id) (Some (issued + 24 * 3600))).
Proof.
  unfold create_access_token, jwt.encode, jwt.decode, timedelta_hours, JWT_EXPIRATION_HOURS.
  cbn [existsb jwt.exp jwt.sub]. by rewrite !String.eqb_refl.
Qed.

(** A token issued for a user verifies, and yields that user's id, at any
    instant less than 24 hours after it was issued. *)
Lemma issued_token_valid (issued now : datetime) (user_id : string) :
  now < issued + 24 * 3600 →
  token_subject os_environ now
    (create_access_token os_environ issued (jwt.Claims (Some user_id) None))
  = Return user_id.
Proof.
  intros Hnow. unfold token_subject, try_except. rewrite decode_issued.
  destruct (Z.leb_spec (issued + 24 * 3600) now); [lia | done].
Qed.

(** From 24 hours after it was issued the token is refused as expired. *)
Lemma issued_token_expired (issued now : datetime) (user_id : string) :
  issued + 24 * 3600 ≤ now →
  token_subject os_environ now
    (create_access_token os_environ issued (jwt.Claims (Some user_id) None))
  = Raise (HTTPException 401 "Token has expired").
Proof.
  intros Hnow. unfold token_subject, try_except. rewrite decode_issued.
  destruct (Z.leb_spec (issued + 24 * 3600) now); [done | lia].
Qed.

(** C6: the clauses of [get_current_user] name [jwt.JWTError], which the
    package does not define. An expired token is refused with 401 "Token has
    expired" by the first clause; every other failure (text that is not a
    token, a bad signature or algorithm, a missing subject) reaches the
    second clause and ends in [AttributeError], a 500, not in the 401 the
    clause was written to raise. *)
Theorem invalid_token_raises_attribute_error (env : Env) (raw : string) (db : DB)
    (now : datetime) (credentials : jwt.token) :
  token_subject os_environ now credentials
  = match jwt.decode credentials (JWT_SECRET os_environ) [JWT_ALGORITHM] now with
    | inl jwt.ExpiredSignatureError => Raise (HTTPException 401 "Token has expired")
    | inl _ => Raise (AttributeError "module 'jwt' has no attribute 'JWTError'")
    | inr payload =>
        match jwt.sub payload with
        | Some user_id => Return user_id
        | None => Raise (AttributeError "module 'jwt' has no attribute 'JWTError'")
        end
    end
  ∧ get_current_user os_environ env (jwt.Garbage raw) db
    = (Raise (AttributeError "module 'jwt' has no attribute 'JWTError'"), db)
  ∧ get_current_user os_environ env
      (jwt.JWS JWT_ALGORITHM (jwt.Claims None None) (JWT_SECRET os_environ)) db
    = (Raise (AttributeError "module 'jwt' has no attribute 'JWTError'"), db)
  ∧ serve os_environ pwd_context env (GET_auth_me (jwt.Garbage raw)) db
    = (Response 500 (JStr "Internal Server Error"), db).
Proof.
  split; [| split; [| split]].
  - unfold token_subject, try_except.
    destruct (jwt.decode credentials (JWT_SECRET os_environ) [JWT_ALGORITHM] now)
      as [[] | [[user_id|] ?]]; done.
  - done.
  - unfold get_current_user, token_subject, jwt.decode. run_handler.
    cbn [existsb jwt.exp]. by rewrite !String.eqb_refl.
  - done.
Qed.
Lemma get_current_user_db (env : Env) (bearer : jwt.token) (db : DB) :
  snd (get_current_user os_environ env bearer db) = db.
Proof.
  unfold get_current_user. run_handler.
  destruct (token_subject os_environ (utcnow env 0) bearer) as [user_id | e]; [| done].
  by destruct (List.find _ (users db)).
Qed.

Lemma protected_preserves {A} (I : DB → Prop) (env : Env) (bearer : jwt.token)
    (h : Env → User.t → handler A) (db : DB) :
  (∀ env u, I (snd (h env u db))) → I db →
  I (snd (protected os_environ env bearer h db)).
Proof.
  intros Hh Hdb. unfold protected. cbv [mbind handler_bind].
  pose proof (get_current_user_db env bearer db) as Heq.
  destruct (get_current_user os_environ env bearer db) as [[u | e] db'];
    cbn in Heq; subst db'; [apply Hh | done].
Qed.

Lemma snd_run {A} (render : A → json) (h : handler A) (db : DB) :
  snd (run render h db) = snd (h db).
Proof. unfold run. by destruct (h db). Qed.


End Application.

Lemma login_invalid_credentials_witness :
  login no_environ toy_context toy_env (UserLogin.mk "bob@example.com" "wonderland") shop_db
  = (Raise (HTTPException 401 "Invalid email or password"), shop_db)
  ∧ login no_environ toy_context toy_env (UserLogin.mk "alice@example.com" "rabbit") shop_db
    = (Raise (HTTPException 401 "Invalid email or password"), shop_db)
  ∧ login no_environ toy_context toy_env
      (UserLogin.mk "alice@example.com" "wonderland") shop_db
    = (Return
         (Token.mk
            (jwt.JWS "HS256" (jwt.Claims (Some "u1") (Some 1700086400))
               "stacko-robo-secret-key-2026")
            "bearer" alice),
       shop_db).
Proof.
  split; [| split].
  - apply (proj1 (login_invalid_credentials no_environ toy_context toy_env
                    (UserLogin.mk "bob@example.com" "wonderland") shop_db)).
    intros u Hu. apply list_elem_of_In in Hu. destruct Hu as [<- | []]. discriminate.
  - apply (proj1 (proj2 (login_invalid_credentials no_environ toy_context toy_env
                           (UserLogin.mk "alice@example.com" "rabbit") shop_db)) alice_doc);
      reflexivity.
  - apply (proj1 (proj2 (proj2 (login_invalid_credentials no_environ toy_context toy_env
                                  (UserLogin.mk "alice@example.com" "wonderland") shop_db)))
             alice_doc);
      reflexivity.
Defined.

Lemma register_duplicate_email_witness :
  register no_environ toy_context toy_env
    (UserCreate.mk "alice@example.com" "queen" "Alice II") shop_db
  = (Raise (HTTPException 400 "Email already registered"), shop_db)
  ∧ register no_environ toy_context toy_env
      (UserCreate.mk "bob@example.com" "builder" "Bob") shop_db
    = (Return
         (Token.mk
            (jwt.JWS "HS256" (jwt.Claims (Some "uuid-0") (Some 1700086401))
               "stacko-robo-secret-key-2026")
            "bearer" (User.mk "uuid-0" "bob@example.com" "Bob" 1700000000)),
       mkDB
         [alice_doc; UserDoc.mk "uuid-0" "bob@example.com" "Bob" 1700000000 "salt$builder"]
         [] [laptop; beans])
  ∧ fst (register no_environ toy_context toy_env
           (UserCreate.mk "bob@example.com" "again" "Bobby")
           (snd (register no_environ toy_context toy_env
                   (UserCreate.mk "bob@example.com" "builder" "Bob") shop_db)))
    = Raise (HTTPException 400 "Email already registered")
  ∧ fst (serve no_environ marked_context toy_env
           (POST_auth_login (UserLogin.mk "alice@example.com" "wonderland")) marked_shop_db)
    = fst (serve no_environ toy_context toy_env
             (POST_auth_login (UserLogin.mk "alice@example.com" "wonderland")) shop_db).
Proof.
  pose proof (register_duplicate_email no_environ toy_context toy_env toy_env
                (UserCreate.mk "alice@example.com" "queen" "Alice II")
                (UserCreate.mk "alice@example.com" "queen" "Alice II") shop_db)
    as (Hdup & _).
  pose proof (register_duplicate_email no_environ toy_context toy_env toy_env
                (UserCreate.mk "bob@example.com" "builder" "Bob")
                (UserCreate.mk "bob@example.com" "again" "Bobby") shop_db)
    as (_ & Hnew & Htwice & Hhashes & _).
  split; [| split; [| split]].
  - apply (Hdup alice_doc); [by left | reflexivity].
  - rewrite Hnew; [reflexivity |].
    intros u Hu. apply list_elem_of_In in Hu. destruct Hu as [<- | []]. discriminate.
  - rewrite Htwice; reflexivity.
  - symmetry. apply Hhashes. split; [| split; reflexivity].
    constructor; [| constructor].
    split; [by repeat split |]. intros password. reflexivity.
Defined.



(** * More of the handlers *)

(** ** Deleting and updating by id *)

Lemma delete_first_split {A} (q : A → bool) (l1 l2 : list A) (x : A) :
  Forall (λ y, q y = false) l1 → q x = true →
  delete_first q (l1 ++ x :: l2) = l1 ++ l2.
Proof.
  intros Hl1 Hx. induction Hl1 as [|y l1 Hy _ IH]; cbn.
  - by rewrite Hx.
  - by rewrite Hy, IH.
Qed.

Lemma delete_first_no_match {A} (q : A → bool) (l : list A) :
  Forall (λ y, q y = false) l → delete_first q l = l.
Proof. induction 1 as [|y l Hy _ IH]; cbn; [done |]. by rewrite Hy, IH. Qed.

Lemma mkDB_eta (db : DB) : mkDB (users db) (categories db) (products db) = db.
Proof. by destruct db. Qed.

(** X1: [delete_product] raises 404 "Product not found" and leaves the
    store as it was when no product has the id; when one has, it removes the
    first product with that id and no other, keeps users and categories, and
    answers "Product deleted successfully". *)
Theorem delete_product_outcomes (product_id : string) (current_user : User.t) (db : DB) :
  ((∀ p, p ∈ products db → Product.id p ≠ product_id) →
   delete_product product_id current_user db
   = (Raise (HTTPException 404 "Product not found"), db))
  ∧ (∀ old : Product.t,
       List.find (λ p, String.eqb (Product.id p) product_id) (products db) = Some old →
       ∃ before after : list Product.t,
         products db = before ++ old :: after
         ∧ Forall (λ p, Product.id p ≠ product_id) before
         ∧ delete_product product_id current_user db
           = (Return "Product deleted successfully",
              mkDB (users db) (categories db) (before ++ after))).
Proof.
  split.
  - intros Habsent.
    assert (Hnone : Forall (λ p, String.eqb (Product.id p) product_id = false) (products db)).
    { apply Forall_forall. intros p Hp. by apply String.eqb_neq, Habsent. }
    unfold delete_product. run_handler.
    rewrite (proj2 (find_None_Forall _ _) Hnone), delete_first_no_match by done.
    cbn. by rewrite mkDB_eta.
  - intros old Hfind.
    destruct (find_Some_split _ _ _ Hfind) as (before & after & Hl & Hbefore & Hold).
    exists before, after. split; [done |]. split.
    { eapply Forall_impl; [exact Hbefore |]. intros p Hp. by apply String.eqb_neq. }
    unfold delete_product. run_handler. rewrite Hfind. cbn.
    by rewrite Hl, (delete_first_split _ before after old Hbefore Hold).
Qed.

Lemma delete_product_outcomes_witness :
  delete_product "p9" alice shop_db = (Raise (HTTPException 404 "Product not found"), shop_db)
  ∧ ∃ before after : list Product.t,
      products shop_db = before ++ beans :: after
      ∧ delete_product "p2" alice shop_db
        = (Return "Product deleted successfully", mkDB [alice_doc] [] (before ++ after)).
Proof.
  destruct (delete_product_outcomes "p9" alice shop_db) as [Hmissing _].
  destruct (delete_product_outcomes "p2" alice shop_db) as [_ Hfound].
  split.
  - apply Hmissing. intros p Hp.
    apply list_elem_of_In in Hp. destruct Hp as [<- | [<- | []]]; discriminate.
  - destruct (Hfound beans eq_refl) as (before & after & Hl & _ & Hrun).
    by exists before, after.
Defined.

(** X2: [update_product] raises 404 "Product not found" and leaves the
    store as it was when no product has the id, whatever the patch holds. *)
Theorem update_product_not_found (env : Env) (product_id : string)
    (product_data : ProductUpdate.t) (current_user : User.t) (db : DB) :
  (∀ p, p ∈ products db → Product.id p ≠ product_id) →
  update_product env product_id product_data current_user db
  = (Raise (HTTPException 404 "Product not found"), db).
Proof.
  intros Habsent. unfold update_product. run_handler.
  rewrite find_no_match; [done |].
  intros p Hp. by apply String.eqb_neq, Habsent.
Qed.

Lemma update_product_not_found_witness :
  update_product toy_env "p9"
    (ProductUpdate.mk (Some "Renamed") None None None None None None) alice shop_db
  = (Raise (HTTPException 404 "Product not found"), shop_db).
Proof.
  apply update_product_not_found. intros p Hp.
  apply list_elem_of_In in Hp. destruct Hp as [<- | [<- | []]]; discriminate.
Defined.

Lemma find_unique {A} (key : A → string) (l : list A) (x : A) :
  NoDup (key <$> l) → x ∈ l →
  List.find (λ y, String.eqb (key y) (key x)) l = Some x.
Proof.
  induction l as [|y l IH]; intros Hnodup Hx; [by apply elem_of_nil in Hx |].
  cbn [fmap list_fmap] in Hnodup. apply NoDup_cons in Hnodup as [Hy Hnodup].
  cbn [List.find]. apply elem_of_cons in Hx as [-> | Hx].
  - by rewrite String.eqb_refl.
  - destruct (String.eqb (key y) (key x)) eqn:Heq; [| by apply IH].
    apply String.eqb_eq in Heq. destruct Hy. rewrite Heq.
    by apply list_elem_of_fmap_2.
Qed.

Lemma find_app_fresh {A} (q : A → bool) (l : list A) (x : A) :
  (∀ y, y ∈ l → q y = false) → q x = true → List.find q (l ++ [x]) = Some x.
Proof.
  intros Hl Hx. induction l as [|y l IH]; cbn.
  - by rewrite Hx.
  - rewrite (Hl y) by by left. apply IH. intros z Hz. apply Hl. by right.
Qed.

(** ** Categories *)


(** X3: [create_category] raises 400 "Category already exists" and
    leaves the store as it was when a category has the name; otherwise it
    appends a category with a fresh id, the name and description of the
    request and the current instant, and returns it; so a second creation
    with the same name is refused. *)
Theorem create_category_outcomes (env env' : Env) (category_data category_data' : CategoryCreate.t)
    (current_user current_user' : User.t) (db : DB) :
  (∀ c : Category.t,
     c ∈ categories db → Category.name c = CategoryCreate.name category_data →
     create_category env category_data current_user db
     = (Raise (HTTPException 400 "Category already exists"), db))
  ∧ ((∀ c : Category.t,
        c ∈ categories db → Category.name c ≠ CategoryCreate.name category_data) →
     create_category env category_data current_user db
     = (Return
          (Category.mk (uuid4 env 0) (CategoryCreate.name category_data)
             (CategoryCreate.description category_data) (utcnow env 0)),
        mkDB (users db)
          (categories db
           ++ [Category.mk (uuid4 env 0) (CategoryCreate.name category_data)
                 (CategoryCreate.description category_data) (utcnow env 0)])
          (products db)))
  ∧ (CategoryCreate.name category_data' = CategoryCreate.name category_data →
     create_category env' category_data' current_user'
       (snd (create_category env category_data current_user db))
     = (Raise (HTTPException 400 "Category already exists"),
        snd (create_category env category_data current_user db))).
Proof.
  assert (Hdup : ∀ (e : Env) (d : CategoryCreate.t) (u : User.t) (s : DB) (c : Category.t),
            c ∈ categories s → Category.name c = CategoryCreate.name d →
            create_category e d u s
            = (Raise (HTTPException 400 "Category already exists"), s)).
  { intros e d u s c Hc Hname. unfold create_category. run_handler.
    destruct (find_elem_Some (λ c, String.eqb (Category.name c) (CategoryCreate.name d))
                (categories s) c Hc) as [y ->]; [by apply String.eqb_eq | done]. }
  assert (Hnew :
    (∀ c : Category.t,
       c ∈ categories db → Category.name c ≠ CategoryCreate.name category_data) →
    create_category env category_data current_user db
    = (Return
         (Category.mk (uuid4 env 0) (CategoryCreate.name category_data)
            (CategoryCreate.description category_data) (utcnow env 0)),
       mkDB (users db)
         (categories db
          ++ [Category.mk (uuid4 env 0) (CategoryCreate.name category_data)
                (CategoryCreate.description category_data) (utcnow env 0)])
         (products db))).
  { intros Habsent. unfold create_category. run_handler.
    rewrite find_no_match; [done |].
    intros c Hc. by apply String.eqb_neq, Habsent. }
  split; [by apply Hdup |]. split; [done |].
  intros Hsame.
  destruct (List.find (λ c, String.eqb (Category.name c) (CategoryCreate.name category_data))
              (categories db)) as [c|] eqn:Hfind.
  - apply find_some in Hfind as [Hc Hname].
    apply list_elem_of_In in Hc. apply String.eqb_eq in Hname.
    rewrite (Hdup env category_data current_user db c Hc Hname). cbn [snd].
    apply (Hdup env' category_data' current_user' db c Hc). congruence.
  - rewrite Hnew.
    2:{ intros c Hc. apply String.eqb_neq.
        apply find_None_Forall in Hfind. rewrite Forall_forall in Hfind. by apply Hfind. }
    cbn [snd]. eapply Hdup.
    + cbn [categories]. apply elem_of_app. right. by left.
    + cbn. by rewrite Hsame.
Qed.

Lemma create_category_outcomes_witness :
  categories
    (snd (create_category toy_env (CategoryCreate.mk "Tools" None) alice shop_db))
  = [Category.mk "uuid-0" "Tools" None 1700000000]
  ∧ fst (create_category toy_env (CategoryCreate.mk "Tools" (Some "again")) alice
           (snd (create_category toy_env (CategoryCreate.mk "Tools" None) alice shop_db)))
    = Raise (HTTPException 400 "Category already exists").
Proof.
  pose proof (create_category_outcomes toy_env toy_env (CategoryCreate.mk "Tools" None)
                (CategoryCreate.mk "Tools" (Some "again")) alice alice shop_db)
    as (_ & Hnew & Htwice).
  split.
  - rewrite Hnew; [reflexivity |]. intros c Hc. by apply elem_of_nil in Hc.
  - rewrite Htwice; reflexivity.
Defined.

(** ** Sessions: a token issued is a token accepted *)

Section Sessions.
Variable os_environ : string → option string.
Variable pwd_context : CryptContext.

(** X4: the token returned by [register] authenticates: presented to
    [get_current_user] on the store after the registration, less than 24
    hours after it was issued, it yields the user just registered (when the
    id drawn for the user is not already in use). *)
Theorem registered_token_authenticates (env env' : Env) (user_data : UserCreate.t) (db : DB) :
  (∀ u : UserDoc.t, u ∈ users db → UserDoc.email u ≠ UserCreate.email user_data) →
  (∀ u : UserDoc.t, u ∈ users db → UserDoc.id u ≠ uuid4 env 0) →
  utcnow env' 0 < utcnow env 1 + 24 * 3600 →
  ∃ (token : Token.t) (db' : DB),
    register os_environ pwd_context env user_data db = (Return token, db')
    ∧ get_current_user os_environ env' (Token.access_token token) db'
      = (Return (Token.user token), db')
    ∧ User.email (Token.user token) = UserCreate.email user_data
    ∧ User.name (Token.user token) = UserCreate.name user_data.
Proof.
  intros Hemail Hid Hnow.
  do 2 eexists. split.
  { unfold register. run_handler. rewrite find_no_match; [reflexivity |].
    intros u Hu. by apply String.eqb_neq, Hemail. }
  cbn [Token.access_token Token.user User.email User.name]. split; [| done].
  unfold get_current_user. run_handler.
  rewrite issued_token_valid by done. cbn [users].
  rewrite find_app_fresh; [done | | apply String.eqb_refl].
  intros u Hu. by apply String.eqb_neq, Hid.
Qed.

(** X5: the token returned by a successful [login] authenticates as
    the user who logged in, less than 24 hours after it was issued, when the
    stored user ids are distinct; the user in the login response is the same
    user. *)
Theorem login_token_authenticates (env env' : Env) (credentials : UserLogin.t) (db : DB)
    (user : UserDoc.t) :
  NoDup (UserDoc.id <$> users db) →
  List.find (λ u, String.eqb (UserDoc.email u) (UserLogin.email credentials)) (users db)
  = Some user →
  verify pwd_context (UserLogin.password credentials) (UserDoc.password_hash user) = true →
  utcnow env' 0 < utcnow env 0 + 24 * 3600 →
  ∃ token : Token.t,
    login os_environ pwd_context env credentials db = (Return token, db)
    ∧ get_current_user os_environ env' (Token.access_token token) db
      = (Return (User_of_doc user), db)
    ∧ Token.user token = User_of_doc user.
Proof.
  intros Hnodup Hfind Hverify Hnow.
  eexists. split.
  { unfold login, verify_password. run_handler. rewrite Hfind, Hverify. reflexivity. }
  cbn [Token.access_token Token.user]. split; [| done].
  unfold get_current_user. run_handler.
  rewrite issued_token_valid by done.
  apply find_some in Hfind as [Hin _]. apply list_elem_of_In in Hin.
  cbn [User_of_doc User.id].
  by rewrite (find_unique UserDoc.id (users db) user Hnodup Hin).
Qed.

(** X6: a well-signed, unexpired token whose subject is the id of no
    stored user is refused by [get_current_user] with 401 "User not found",
    the store unchanged. *)
Theorem unknown_subject_rejected (env : Env) (issued : datetime) (user_id : string) (db : DB) :
  utcnow env 0 < issued + 24 * 3600 →
  (∀ u : UserDoc.t, u ∈ users db → UserDoc.id u ≠ user_id) →
  get_current_user os_environ env
    (create_access_token os_environ issued (jwt.Claims (Some user_id) None)) db
  = (Raise (HTTPException 401 "User not found"), db).
Proof.
  intros Hnow Habsent. unfold get_current_user. run_handler.
  rewrite issued_token_valid by done.
  rewrite find_no_match; [done |].
  intros u Hu. by apply String.eqb_neq, Habsent.
Qed.
End Sessions.

Lemma registered_token_authenticates_witness :
  ∃ (token : Token.t) (db' : DB),
    register no_environ toy_context toy_env
      (UserCreate.mk "bob@example.com" "builder" "Bob") shop_db
    = (Return token, db')
    ∧ get_current_user no_environ (after_clock 5 toy_env) (Token.access_token token) db'
      = (Return (Token.user token), db')
    ∧ User.email (Token.user token) = "bob@example.com"
    ∧ User.name (Token.user token) = "Bob".
Proof.
  apply (registered_token_authenticates no_environ toy_context toy_env
           (after_clock 5 toy_env) (UserCreate.mk "bob@example.com" "builder" "Bob") shop_db).
  - intros u Hu. apply list_elem_of_In in Hu. destruct Hu as [<- | []]. discriminate.
  - intros u Hu. apply list_elem_of_In in Hu. destruct Hu as [<- | []]. discriminate.
  - cbn. lia.
Defined.

Lemma login_token_authenticates_witness :
  ∃ token : Token.t,
    login no_environ toy_context toy_env
      (UserLogin.mk "alice@example.com" "wonderland") shop_db
    = (Return token, shop_db)
    ∧ get_current_user no_environ (after_clock 5 toy_env) (Token.access_token token) shop_db
      = (Return alice, shop_db)
    ∧ Token.user token = alice.
Proof.
  apply (login_token_authenticates no_environ toy_context toy_env (after_clock 5 toy_env)
           (UserLogin.mk "alice@example.com" "wonderland") shop_db alice_doc).
  - cbn. apply NoDup_singleton.
  - reflexivity.
  - reflexivity.
  - cbn. lia.
Defined.

Lemma unknown_subject_rejected_witness :
  get_current_user no_environ toy_env
    (create_access_token no_environ 1699990000 (jwt.Claims (Some "u7") None)) shop_db
  = (Raise (HTTPException 401 "User not found"), shop_db).
Proof.
  apply unknown_subject_rejected.
  - cbn. lia.
  - intros u Hu. apply list_elem_of_In in Hu. destruct Hu as [<- | []]. discriminate.
Defined.

(** ** The guard and the life of the stored users and categories *)

Section Guard.
Variable os_environ : string → option string.
Variable pwd_context : CryptContext.

Lemma protected_guard_raises {A} (env : Env) (bearer : jwt.token)
    (h : Env → User.t → handler A) (db : DB) (e : exception) :
  fst (get_current_user os_environ env bearer db) = Raise e →
  protected os_environ env bearer h db = (Raise e, db).
Proof.
  intros Hguard. unfold protected. cbv [mbind handler_bind].
  pose proof (get_current_user_db os_environ env bearer db) as Hdb.
  destruct (get_current_user os_environ env bearer db) as [[u | e'] db'];
    cbn in Hguard, Hdb; [done |]. congruence.
Qed.

Lemma run_raise {A} (render : A → json) (h : handler A) (db db' : DB) (e : exception) :
  h db = (Raise e, db') → run render h db = (error_response e, db').
Proof. intros Hh. unfold run. by rewrite Hh. Qed.

Lemma serve_guard_raises (env : Env) (r : request) (bearer : jwt.token) (e : exception)
    (db : DB) :
  request_bearer r = Some bearer →
  fst (get_current_user os_environ env bearer db) = Raise e →
  serve os_environ pwd_context env r db = (error_response e, db).
Proof.
  intros Hr Hguard.
  destruct r; cbn in Hr; try discriminate Hr; injection Hr as ->;
    cbn [serve]; by apply run_raise, protected_guard_raises.
Qed.

(** X7: on every route behind [Depends(get_current_user)], when the
    guard raises, the handler does not run: the response is that of the
    guard's exception (its status and detail for an [HTTPException], a 500
    otherwise) and the store is unchanged. *)
Theorem guard_failure_stops_request (env : Env) (r : request) (bearer : jwt.token)
    (e : exception) (db : DB) :
  request_bearer r = Some bearer →
  fst (get_current_user os_environ env bearer db) = Raise e →
  serve os_environ pwd_context env r db
  = (match e with
     | HTTPException status_code detail =>
         Response status_code (JObj [ ("detail", JStr detail) ])
     | _ => Response 500 (JStr "Internal Server Error")
     end,
     db).
Proof.
  intros Hr Hguard. rewrite (serve_guard_raises env r bearer e db Hr Hguard).
  by destruct e.
Qed.

(** X8: every protected route answers a token presented 24 hours or
    more after it was issued with 401 "Token has expired" and leaves the
    store unchanged. *)
Theorem expired_token_rejected (env : Env) (r : request) (issued : datetime)
    (user_id : string) (db : DB) :
  request_bearer r
  = Some (create_access_token os_environ issued (jwt.Claims (Some user_id) None)) →
  issued + 24 * 3600 ≤ utcnow env 0 →
  serve os_environ pwd_context env r db
  = (Response 401 (JObj [ ("detail", JStr "Token has expired") ]), db).
Proof.
  intros Hr Hnow.
  rewrite (serve_guard_raises env r _ (HTTPException 401 "Token has expired") db Hr); [done |].
  unfold get_current_user. run_handler. by rewrite issued_token_expired.
Qed.

Lemma protected_preserves_env {A} (I : DB → Prop) (env : Env) (bearer : jwt.token)
    (h : Env → User.t → handler A) (db : DB) :
  (∀ u, I (snd (h (after_clock 1 env) u db))) → I db →
  I (snd (protected os_environ env bearer h db)).
Proof.
  intros Hh Hdb. unfold protected. cbv [mbind handler_bind].
  pose proof (get_current_user_db os_environ env bearer db) as Heq.
  destruct (get_current_user os_environ env bearer db) as [[u | e] db'];
    cbn in Heq; subst db'; [apply Hh | done].
Qed.

Lemma login_db (env : Env) (credentials : UserLogin.t) (db : DB) :
  snd (login os_environ pwd_context env credentials db) = db.
Proof.
  unfold login. run_handler. destruct (List.find _ (users db)); [| done].
  by destruct (negb _).
Qed.

Lemma update_product_frame_others (env : Env) (product_id : string)
    (product_data : ProductUpdate.t) (current_user : User.t) (db : DB) :
  users (snd (update_product env product_id product_data current_user db)) = users db
  ∧ categories (snd (update_product env product_id product_data current_user db))
    = categories db.
Proof.
  unfold update_product. run_handler.
  destruct (List.find _ (products db)) as [existing|]; [| done].
  destruct (ProductUpdate.sku product_data) as [sku|];
    [destruct (negb (String.eqb sku (Product.sku existing)));
       [destruct (List.find _ (products db)); [done |] |] |];
    (destruct (bson_update_data product_data); [| done]);
    cbn; by destruct (List.find _ (update_first _ _ _)).
Qed.

Lemma serve_users_step (env : Env) (r : request) (db : DB) :
  users (snd (serve os_environ pwd_context env r db)) = users db
  ∨ ∃ (user_data : UserCreate.t) (u : UserDoc.t),
      r = POST_auth_register user_data
      ∧ users (snd (serve os_environ pwd_context env r db)) = users db ++ [u]
      ∧ UserDoc.email u = UserCreate.email user_data
      ∧ ∀ v : UserDoc.t, v ∈ users db → UserDoc.email v ≠ UserDoc.email u.
Proof.
  destruct r; cbn [serve]; rewrite snd_run;
    try (apply (protected_preserves os_environ (λ s, users s = users db ∨ _));
         [intros env0 u; left | by left]).
  - unfold register. run_handler.
    destruct (List.find _ (users db)) eqn:Hfind; [by left |].
    right. do 2 eexists. split; [done |]. split; [done |]. split; [done |].
    cbn. intros v Hv. apply String.eqb_neq.
    apply find_None_Forall in Hfind. rewrite Forall_forall in Hfind. by apply Hfind.
  - left. by rewrite login_db.
  - done.
  - done.
  - unfold create_category. run_handler. by destruct (List.find _ (categories db)).
  - done.
  - unfold create_product. run_handler.
    destruct (List.find _ (products db)); [done |]. by destruct (bson_Product _).
  - apply update_product_frame_others.
  - unfold delete_product. run_handler. by destruct (List.find _ (products db)).
  - done.
  - done.
  - left. unfold seed_data. run_handler. by destruct (0 <? _).
Qed.

Lemma serve_categories_step (env : Env) (r : request) (db : DB) :
  categories (snd (serve os_environ pwd_context env r db)) = categories db
  ∨ (∃ (bearer : jwt.token) (category_data : CategoryCreate.t) (c : Category.t),
       r = POST_categories bearer category_data
       ∧ categories (snd (serve os_environ pwd_context env r db)) = categories db ++ [c]
       ∧ Category.name c = CategoryCreate.name category_data
       ∧ ∀ d : Category.t, d ∈ categories db → Category.name d ≠ Category.name c)
  ∨ (r = POST_seed_data ∧ categories db = []
     ∧ categories (snd (serve os_environ pwd_context env r db)) = seed_categories env).
Proof.
  destruct r; cbn [serve]; rewrite snd_run;
    try (match goal with
         | |- context [snd (protected ?o ?e ?b ?h ?d)] => pattern (snd (protected o e b h d))
         end;
         apply protected_preserves; [intros env0 u | by left]).
  - left. unfold register. run_handler. by destruct (List.find _ (users db)).
  - left. by rewrite login_db.
  - by left.
  - by left.
  - unfold create_category. run_handler.
    destruct (List.find _ (categories db)) eqn:Hfind; [by left |].
    right. left. do 3 eexists. split; [done |]. split; [done |]. split; [done |].
    cbn. intros d Hd. apply String.eqb_neq.
    apply find_None_Forall in Hfind. rewrite Forall_forall in Hfind. by apply Hfind.
  - by left.
  - left. unfold create_product. run_handler.
    destruct (List.find _ (products db)); [done |]. by destruct (bson_Product _).
  - left. apply update_product_frame_others.
  - left. unfold delete_product. run_handler. by destruct (List.find _ (products db)).
  - by left.
  - by left.
  - unfold seed_data. run_handler. rewrite count_positive.
    destruct (categories db) eqn:Hc; cbn; [| by left].
    right. right. by rewrite ?Hc.
Qed.

Lemma serve_query_db (env : Env) (r : request) (db : DB) :
  match r with
  | POST_auth_login _ | GET_auth_me _ | GET_categories _ | GET_products _ _ _
  | GET_dashboard_stats _ | GET_dashboard_stock_distribution _ =>
      snd (serve os_environ pwd_context env r db) = db
  | _ => True
  end.
Proof.
  destruct r; cbn [serve]; try done; rewrite snd_run;
    try by apply (protected_preserves os_environ (λ s, s = db)).
  apply login_db.
Qed.

(** X9: no route removes or alters a user or a category.  The users
    change only by a registration, which appends one user with the email of
    the request, an email no stored user had; the categories change only by
    a category creation, which appends one category with a name no stored
    category had, or by seeding a store without categories; and the login,
    me, listing and dashboard routes leave the whole store as it was. *)
Theorem serve_store_lifecycle (env : Env) (r : request) (db : DB) :
  (users (snd (serve os_environ pwd_context env r db)) = users db
   ∨ ∃ (user_data : UserCreate.t) (u : UserDoc.t),
       r = POST_auth_register user_data
       ∧ users (snd (serve os_environ pwd_context env r db)) = users db ++ [u]
       ∧ UserDoc.email u = UserCreate.email user_data
       ∧ ∀ v : UserDoc.t, v ∈ users db → UserDoc.email v ≠ UserDoc.email u)
  ∧ (categories (snd (serve os_environ pwd_context env r db)) = categories db
     ∨ (∃ (bearer : jwt.token) (category_data : CategoryCreate.t) (c : Category.t),
          r = POST_categories bearer category_data
          ∧ categories (snd (serve os_environ pwd_context env r db)) = categories db ++ [c]
          ∧ Category.name c = CategoryCreate.name category_data
          ∧ ∀ d : Category.t, d ∈ categories db → Category.name d ≠ Category.name c)
     ∨ (r = POST_seed_data ∧ categories db = []
        ∧ categories (snd (serve os_environ pwd_context env r db)) = seed_categories env))
  ∧ match r with
    | POST_auth_login _ | GET_auth_me _ | GET_categories _ | GET_products _ _ _
    | GET_dashboard_stats _ | GET_dashboard_stock_distribution _ =>
        snd (serve os_environ pwd_context env r db) = db
    | _ => True
    end.
Proof.
  split; [apply serve_users_step |]. split; [apply serve_categories_step |].
  apply serve_query_db.
Qed.

Lemma NoDup_fmap_snoc {A} (key : A → string) (l : list A) (x : A) :
  NoDup (key <$> l) → (∀ y, y ∈ l → key y ≠ key x) → NoDup (key <$> l ++ [x]).
Proof.
  intros Hl Hx. rewrite fmap_app. apply NoDup_app. split; [done |]. split.
  - intros k Hk Hk'. apply list_elem_of_fmap in Hk as (y & -> & Hy).
    cbn in Hk'. apply list_elem_of_singleton in Hk'. by apply (Hx y).
  - cbn. apply NoDup_singleton.
Qed.

(** X10: distinct emails of the stored users stay distinct across every
    request. *)
Theorem email_unique_preserved (env : Env) (r : request) (db : DB) :
  NoDup (UserDoc.email <$> users db) →
  NoDup (UserDoc.email <$> users (snd (serve os_environ pwd_context env r db))).
Proof.
  intros Hdb.
  destruct (serve_users_step env r db) as [-> | (user_data & u & _ & -> & _ & Hfresh)];
    [done |].
  by apply NoDup_fmap_snoc.
Qed.

(** X11: distinct names of the stored categories stay distinct across
    every request, seeding included. *)
Theorem category_name_unique_preserved (env : Env) (r : request) (db : DB) :
  NoDup (Category.name <$> categories db) →
  NoDup (Category.name <$> categories (snd (serve os_environ pwd_context env r db))).
Proof.
  intros Hdb.
  destruct (serve_categories_step env r db)
    as [-> | [(bearer & category_data & c & _ & -> & _ & Hfresh) | (_ & _ & ->)]];
    [done | by apply NoDup_fmap_snoc |].
  cbn. apply NoDup_ListNoDup. repeat constructor; cbn; intuition discriminate.
Qed.
End Guard.

Lemma guard_failure_stops_request_witness :
  serve no_environ toy_context toy_env
    (DELETE_products
       (create_access_token no_environ 1699990000 (jwt.Claims (Some "u7") None)) "p1")
    shop_db
  = (Response 401 (JObj [ ("detail", JStr "User not found") ]), shop_db).
Proof.
  apply (guard_failure_stops_request no_environ toy_context toy_env _
           (create_access_token no_environ 1699990000 (jwt.Claims (Some "u7") None))
           (HTTPException 401 "User not found") shop_db);
    reflexivity.
Defined.

Lemma expired_token_rejected_witness :
  serve no_environ toy_context toy_env
    (POST_products
       (create_access_token no_environ 1690000000 (jwt.Claims (Some "u1") None))
       (ProductCreate.parse "Tablet" "ELEC-004" "Electronics" 3 199 None None))
    shop_db
  = (Response 401 (JObj [ ("detail", JStr "Token has expired") ]), shop_db).
Proof.
  apply (expired_token_rejected no_environ toy_context toy_env _ 1690000000 "u1" shop_db).
  - reflexivity.
  - cbn. lia.
Defined.

Lemma email_unique_preserved_witness :
  NoDup (UserDoc.email
           <$> users (snd (serve no_environ toy_context toy_env
                             (POST_auth_register
                                (UserCreate.mk "bob@example.com" "builder" "Bob"))
                             shop_db))).
Proof.
  apply email_unique_preserved. cbn. apply NoDup_singleton.
Defined.

Lemma category_name_unique_preserved_witness :
  NoDup (Category.name
           <$> categories
                 (snd (serve no_environ toy_context toy_env
                         (POST_categories
                            (create_access_token no_environ 1699990000
                               (jwt.Claims (Some "u1") None))
                            (CategoryCreate.mk "Tools" None))
                         (mkDB [alice_doc] [Category.mk "c1" "Toys" None 1600000000] [])))).
Proof.
  apply category_name_unique_preserved. cbn. apply NoDup_singleton.
Defined.

(** ** Unique product ids and SKUs *)

Lemma fmap_update_first {A B} (key : A → B) (q : A → bool) (f : A → A) (l : list A) :
  (∀ x, key (f x) = key x) → key <$> update_first q f l = key <$> l.
Proof.
  intros Hf. induction l as [|x l IH]; cbn; [done |].
  destruct (q x); cbn; by rewrite ?Hf, ?IH.
Qed.

Lemma delete_first_sublist {A} (q : A → bool) (l : list A) :
  delete_first q l `sublist_of` l.
Proof.
  induction l as [|x l IH]; cbn; [done |].
  destruct (q x); [by apply sublist_cons | by apply sublist_skip].
Qed.

Lemma NoDup_fmap_delete_first {A} (key : A → string) (q : A → bool) (l : list A) :
  NoDup (key <$> l) → NoDup (key <$> delete_first q l).
Proof.
  intros Hl. eapply sublist_NoDup; [exact Hl |].
  apply fmap_sublist, delete_first_sublist.
Qed.

Lemma NoDup_fmap_replace {A} (key : A → string) (l1 l2 : list A) (x x' : A) :
  NoDup (key <$> l1 ++ x :: l2) →
  (∀ y, y ∈ l1 ++ l2 → key y ≠ key x') →
  NoDup (key <$> l1 ++ x' :: l2).
Proof.
  rewrite !fmap_app, !fmap_cons, !NoDup_app, !NoDup_cons.
  intros (Hl1 & Hdisj & Hx & Hl2) Hfresh. split; [done |]. split.
  - intros k Hk1 Hk2. apply elem_of_cons in Hk2 as [-> | Hk2].
    + apply list_elem_of_fmap in Hk1 as (y & Hy & Hin).
      apply (Hfresh y); [apply elem_of_app; by left | done].
    + apply (Hdisj k Hk1). by right.
  - split; [| done].
    intros (y & Hy & Hin)%list_elem_of_fmap.
    apply (Hfresh y); [apply elem_of_app; by right | done].
Qed.

Lemma NoDup_fmap_split_others {A} (key : A → string) (l1 l2 : list A) (x y : A) :
  NoDup (key <$> l1 ++ x :: l2) → y ∈ l1 ++ l2 → key y ≠ key x.
Proof.
  rewrite !fmap_app, !fmap_cons, !NoDup_app, !NoDup_cons.
  intros (_ & Hdisj & Hx & _) Hy Heq.
  apply elem_of_app in Hy as [Hy | Hy].
  - apply (Hdisj (key y)); [by apply list_elem_of_fmap_2 |]. rewrite Heq. by left.
  - apply Hx. rewrite <- Heq. by apply list_elem_of_fmap_2.
Qed.

(** Unique ids and SKUs survive [create_product], for an id not in use. *)
Lemma create_product_keys_unique (env : Env) (product_data : ProductCreate.t)
    (current_user : User.t) (db : DB) :
  (∀ p, p ∈ products db → Product.id p ≠ uuid4 env 0) →
  NoDup (Product.id <$> products db) →
  NoDup (Product.sku <$> products db) →
  NoDup (Product.id <$> products (snd (create_product env product_data current_user db)))
  ∧ NoDup (Product.sku <$> products (snd (create_product env product_data current_user db))).
Proof.
  intros Hfresh Hid Hsku. unfold create_product. run_handler.
  destruct (List.find _ (products db)) eqn:Hfind; [done |].
  destruct (bson_Product _); [| done].
  cbn. split; apply NoDup_fmap_snoc; try done.
  cbn. intros p Hp. apply String.eqb_neq.
  apply find_None_Forall in Hfind. rewrite Forall_forall in Hfind. by apply Hfind.
Qed.

Lemma update_product_keys_unique (env : Env) (product_id : string)
    (product_data : ProductUpdate.t) (current_user : User.t) (db : DB) :
  NoDup (Product.id <$> products db) →
  NoDup (Product.sku <$> products db) →
  NoDup (Product.id
           <$> products (snd (update_product env product_id product_data current_user db)))
  ∧ NoDup (Product.sku
             <$> products (snd (update_product env product_id product_data current_user db))).
Proof.
  intros Hid Hsku. unfold update_product. run_handler.
  destruct (List.find (λ p, String.eqb (Product.id p) product_id) (products db))
    as [existing|] eqn:Hfind; [| done].
  destruct (find_Some_split _ _ _ Hfind) as (l1 & l2 & Hl & Hl1 & Hex).
  apply String.eqb_eq in Hex.
  assert (Hgoal :
    (∀ sku, ProductUpdate.sku product_data = Some sku → sku ≠ Product.sku existing →
            ∀ p, p ∈ l1 ++ l2 → Product.sku p ≠ sku) →
    NoDup (Product.id
             <$> update_first (λ p, String.eqb (Product.id p) product_id)
                   (set_update_data product_data (utcnow env 0)) (products db))
    ∧ NoDup (Product.sku
               <$> update_first (λ p, String.eqb (Product.id p) product_id)
                     (set_update_data product_data (utcnow env 0)) (products db))).
  { intros Hnew. split; [by rewrite fmap_update_first |].
    rewrite Hl, update_first_split by (done || by apply String.eqb_eq).
    rewrite Hl in Hsku.
    eapply NoDup_fmap_replace; [exact Hsku |].
    intros p Hp. cbn.
    destruct (ProductUpdate.sku product_data) as [sku|] eqn:Hpatch; cbn.
    - destruct (String.eqb_spec sku (Product.sku existing)) as [-> | Hne].
      + by apply (NoDup_fmap_split_others Product.sku l1 l2 existing p).
      + by apply (Hnew sku).
    - by apply (NoDup_fmap_split_others Product.sku l1 l2 existing p). }
  destruct (ProductUpdate.sku product_data) as [sku|] eqn:Hpatch.
  - destruct (String.eqb_spec sku (Product.sku existing)) as [Heq | Hne]; cbn [negb].
    + destruct (bson_update_data product_data); [| done].
      cbn. destruct (List.find _ (update_first _ _ _)); cbn; apply Hgoal; by intros ? [= <-].
    + destruct (List.find (λ p, String.eqb (Product.sku p) sku
                                && negb (String.eqb (Product.id p) product_id))
                  (products db)) eqn:Hcheck; [done |].
      destruct (bson_update_data product_data); [| done].
      cbn. destruct (List.find _ (update_first _ _ _)); cbn; apply Hgoal;
        intros ? [= <-] _ p Hp Hp_sku;
        apply find_None_Forall in Hcheck; rewrite Forall_forall in Hcheck;
        (assert (Hin : p ∈ products db)
           by (rewrite Hl; apply elem_of_app in Hp as [?|?];
               apply elem_of_app; [by left | by right; right]));
        specialize (Hcheck p Hin); cbn in Hcheck;
        apply andb_false_iff in Hcheck as [Hcheck | Hcheck];
        [ by apply String.eqb_neq in Hcheck
        | apply negb_false_iff, String.eqb_eq in Hcheck;
          rewrite Hl in Hid;
          by apply (NoDup_fmap_split_others Product.id l1 l2 existing p Hid Hp);
             rewrite Hcheck, Hex
        | by apply String.eqb_neq in Hcheck
        | apply negb_false_iff, String.eqb_eq in Hcheck;
          rewrite Hl in Hid;
          by apply (NoDup_fmap_split_others Product.id l1 l2 existing p Hid Hp);
             rewrite Hcheck, Hex ].
  - destruct (bson_update_data product_data); [| done].
    cbn. destruct (List.find _ (update_first _ _ _)); cbn; apply Hgoal; by intros ? [=].
Qed.

Lemma delete_product_keys_unique (product_id : string) (current_user : User.t) (db : DB) :
  NoDup (Product.id <$> products db) →
  NoDup (Product.sku <$> products db) →
  NoDup (Product.id <$> products (snd (delete_product product_id current_user db)))
  ∧ NoDup (Product.sku <$> products (snd (delete_product product_id current_user db))).
Proof.
  intros Hid Hsku. unfold delete_product. run_handler.
  destruct (List.find _ (products db)); cbn; split; by apply NoDup_fmap_delete_first.
Qed.

Section Keys.
Variable os_environ : string → option string.
Variable pwd_context : CryptContext.

(** X12: distinct product ids and distinct SKUs stay distinct across
    every request but the seeding one, provided the id drawn for a new
    product is not in use: the SKU checks of [create_product] and
    [update_product] keep the SKUs unique. *)
Theorem product_keys_unique_preserved (env : Env) (r : request) (db : DB) :
  r ≠ POST_seed_data →
  (∀ p, p ∈ products db → Product.id p ≠ uuid4 env 0) →
  NoDup (Product.id <$> products db) →
  NoDup (Product.sku <$> products db) →
  NoDup (Product.id <$> products (snd (serve os_environ pwd_context env r db)))
  ∧ NoDup (Product.sku <$> products (snd (serve os_environ pwd_context env r db))).
Proof.
  intros Hr Hfresh Hid Hsku.
  destruct r; cbn [serve]; rewrite snd_run;
    try (match goal with
         | |- context [snd (protected ?o ?e ?b ?h ?d)] => pattern (snd (protected o e b h d))
         end;
         apply protected_preserves_env; [intros u | done]).
  - unfold register. run_handler. by destruct (List.find _ (users db)).
  - by rewrite login_db.
  - done.
  - done.
  - unfold create_category. run_handler. by destruct (List.find _ (categories db)).
  - done.
  - by apply create_product_keys_unique.
  - by apply update_product_keys_unique.
  - by apply delete_product_keys_unique.
  - done.
  - done.
  - done.
Qed.
End Keys.

Lemma product_keys_unique_preserved_witness :
  NoDup (Product.sku
           <$> products
                 (snd (serve no_environ toy_context toy_env
                         (PUT_products
                            (create_access_token no_environ 1699990000
                               (jwt.Claims (Some "u1") None))
                            "p2"
                            (ProductUpdate.mk None (Some "FOOD-002") None None None None None))
                         shop_db))).
Proof.
  apply (product_keys_unique_preserved no_environ toy_context toy_env).
  - discriminate.
  - intros p Hp. apply list_elem_of_In in Hp. destruct Hp as [<- | [<- | []]]; discriminate.
  - cbn. apply NoDup_ListNoDup. repeat constructor; cbn; intuition discriminate.
  - cbn. apply NoDup_ListNoDup. repeat constructor; cbn; intuition discriminate.
Defined.

(** [seed_data] inserts its catalog without looking at the stored SKUs: on
    a store with products but no category it can duplicate one. *)
Example seed_data_can_duplicate_sku :
  let db := mkDB [] [] [laptop] in
  NoDup (Product.sku <$> products db)
  ∧ ¬ NoDup (Product.sku <$> products (snd (seed_data toy_env db))).
Proof.
  split.
  - cbn. apply NoDup_singleton.
  - cbn. intros H. apply NoDup_cons in H as [H _]. apply H. by left.
Qed.

(** ** The stock distribution *)

Lemma distribution_add_cases (c : string) (v : float) (d : list (string * (Z * float))) :
  (∃ d1 n t d2,
     d = d1 ++ (c, (n, t)) :: d2 ∧ (c ∉ fst <$> d1)
     ∧ distribution_add c v d = d1 ++ (c, (n + 1, PrimFloat.add t v)) :: d2)
  ∨ ((c ∉ fst <$> d)
     ∧ distribution_add c v d = d ++ [(c, (0 + 1, PrimFloat.add (float_of_int 0) v))]).
Proof.
  induction d as [|[cat [count total_value]] d IH].
  - right. split; [apply not_elem_of_nil | done].
  - cbn [distribution_add]. destruct (String.eqb_spec cat c) as [-> | Hne].
    + left. exists [], count, total_value, d. split; [done |].
      split; [apply not_elem_of_nil | done].
    + destruct IH as [(d1 & n & t & d2 & -> & Hd1 & ->) | [Hd ->]].
      * left. exists ((cat, (count, total_value)) :: d1), n, t, d2.
        split; [done |]. split; [| done].
        cbn. intros [? | ?]%elem_of_cons; [congruence | done].
      * right. split; [| done].
        cbn. intros [? | ?]%elem_of_cons; [congruence | done].
Qed.

Lemma filter_snoc {A} (q : A → bool) (l : list A) (x : A) :
  List.filter q (l ++ [x]) = List.filter q l ++ (if q x then [x] else []).
Proof. by rewrite List.filter_app. Qed.

Lemma category_entry_other (l : list Product.t) (p : Product.t) (c : string) :
  c ≠ Product.category p → category_entry (l ++ [p]) c = category_entry l c.
Proof.
  intros Hne. unfold category_entry. rewrite filter_snoc.
  unfold in_category at 2 4. destruct (String.eqb_spec (Product.category p) c); [congruence |].
  by rewrite app_nil_r.
Qed.

Lemma category_entry_same (l : list Product.t) (p : Product.t) :
  category_entry (l ++ [p]) (Product.category p)
  = (fst (category_entry l (Product.category p)) + 1,
     PrimFloat.add (snd (category_entry l (Product.category p))) (stock_value p)).
Proof.
  unfold category_entry. rewrite filter_snoc.
  unfold in_category at 2 4. rewrite String.eqb_refl. cbn [fst snd].
  rewrite length_app, fmap_app. unfold py_sum_float. rewrite fold_left_app.
  cbn. f_equal. lia.
Qed.

Lemma category_entry_absent (l : list Product.t) (c : string) :
  c ∉ (Product.category <$> l) → category_entry l c = (0, float_of_int 0).
Proof.
  intros Hc. unfold category_entry.
  assert (Hnil : List.filter (in_category c) l = []).
  { induction l as [|p l IH]; [done |]. cbn.
    unfold in_category at 1. destruct (String.eqb_spec (Product.category p) c) as [<- | _].
    - destruct Hc. by left.
    - apply IH. intros Hin. apply Hc. by right. }
  by rewrite Hnil.
Qed.

Lemma sum_counts_app (d1 d2 : list (string * (Z * float))) :
  foldr Z.add 0 ((λ e, fst (snd e)) <$> d1 ++ d2)
  = foldr Z.add 0 ((λ e, fst (snd e)) <$> d1) + foldr Z.add 0 ((λ e, fst (snd e)) <$> d2).
Proof. induction d1 as [|e d1 IH]; cbn; [done |]. rewrite IH. lia. Qed.

Lemma distribution_of_step (l : list Product.t) (p : Product.t)
    (d : list (string * (Z * float))) :
  distribution_of l d →
  distribution_of (l ++ [p]) (distribution_add (Product.category p) (stock_value p) d).
Proof.
  intros (Hnodup & Hkeys & Hentries & Hsum).
  destruct (distribution_add_cases (Product.category p) (stock_value p) d)
    as [(d1 & n & t & d2 & -> & Hd1 & ->) | [Hd ->]].
  - assert (Hfst : ∀ e : Z * float,
              fst <$> d1 ++ (Product.category p, e) :: d2
              = fst <$> d1 ++ (Product.category p, (n, t)) :: d2).
    { intros e. by rewrite !fmap_app. }
    apply Forall_app in Hentries as [He1 He2].
    apply Forall_cons in He2 as [He He2]. cbn in He.
    split; [by rewrite Hfst |]. split; [| split].
    + intros c. rewrite Hfst, Hkeys, fmap_app, elem_of_app. cbn.
      rewrite list_elem_of_singleton. split; [by left |].
      intros [Hc | ->]; [done |].
      apply Hkeys. rewrite fmap_app. apply elem_of_app. right. by left.
    + rewrite fmap_app, NoDup_app in Hnodup. destruct Hnodup as (_ & Hdisj & Hn2).
      cbn in Hn2. apply NoDup_cons in Hn2 as [Hc2 _].
      apply Forall_app. split; [| apply Forall_cons; split].
      * rewrite Forall_forall in He1 |- *. intros e Hin.
        rewrite category_entry_other; [by apply He1 |].
        intros Heq. apply Hd1. rewrite <- Heq. by apply list_elem_of_fmap_2.
      * cbn. by rewrite category_entry_same, <- He.
      * rewrite Forall_forall in He2 |- *. intros e Hin.
        rewrite category_entry_other; [by apply He2 |].
        intros Heq. apply Hc2. rewrite <- Heq. by apply list_elem_of_fmap_2.
    + rewrite sum_counts_app in Hsum |- *. cbn in Hsum |- *.
      rewrite length_app. cbn. lia.
  - split; [| split; [| split]].
    + rewrite fmap_app. apply NoDup_app. split; [done |]. split; [| apply NoDup_singleton].
      intros c Hc Hc'. cbn in Hc'. apply list_elem_of_singleton in Hc'. by subst c.
    + intros c. rewrite !fmap_app, !elem_of_app, Hkeys. cbn.
      by rewrite !list_elem_of_singleton.
    + apply Forall_app. split.
      * rewrite Forall_forall in Hentries |- *. intros e Hin.
        rewrite category_entry_other; [by apply Hentries |].
        intros Heq. apply Hd. rewrite <- Heq. by apply list_elem_of_fmap_2.
      * apply Forall_singleton. cbn.
        rewrite category_entry_same, category_entry_absent; [done |].
        by rewrite <- Hkeys.
    + rewrite sum_counts_app, Hsum, length_app. cbn. lia.
Qed.

Lemma distribution_of_fold (l done : list Product.t) (d : list (string * (Z * float))) :
  distribution_of done d →
  distribution_of (done ++ l)
    (fold_left
       (λ distribution product,
          distribution_add (Product.category product)
            (int_mul_float (Product.quantity product) (Product.unit_price product))
            distribution)
       l d).
Proof.
  revert done d. induction l as [|p l IH]; intros done d Hd; cbn.
  - by rewrite app_nil_r.
  - rewrite (assoc_L (++) done [p] l : done ++ p :: l = (done ++ [p]) ++ l).
    apply IH. by apply distribution_of_step.
Qed.

(** X13: [get_stock_distribution] groups the fetched products (the
    first 1000) by category: each category of a fetched product has exactly
    one entry, an entry's count is the number of fetched products of its
    category and its total value is the left-to-right float sum, from 0, of
    quantity times unit price over them; the counts add up to the number of
    fetched products. *)
Theorem get_stock_distribution_groups (current_user : User.t) (db : DB) :
  ∃ result : list StockDistribution.t,
    get_stock_distribution current_user db = (Return result, db)
    ∧ NoDup (StockDistribution.category <$> result)
    ∧ (∀ c : string,
         c ∈ StockDistribution.category <$> result
         ↔ ∃ p : Product.t, p ∈ take 1000 (products db) ∧ Product.category p = c)
    ∧ (∀ d : StockDistribution.t,
         d ∈ result →
         StockDistribution.count d
         = Z.of_nat (length (List.filter (in_category (StockDistribution.category d))
                               (take 1000 (products db))))
         ∧ StockDistribution.total_value d
           = py_sum_float
               ((λ p, int_mul_float (Product.quantity p) (Product.unit_price p))
                  <$> List.filter (in_category (StockDistribution.category d))
                        (take 1000 (products db))))
    ∧ py_sum_int (StockDistribution.count <$> result)
      = Z.of_nat (length (take 1000 (products db))).
Proof.
  eexists. split; [unfold get_stock_distribution; run_handler; reflexivity |].
  rewrite filter_true.
  destruct (distribution_of_fold (take 1000 (products db)) [] [])
    as (Hnodup & Hkeys & Hentries & Hsum).
  { split; [constructor |]. split; [done |]. split; [constructor | done]. }
  cbn [app] in Hnodup, Hkeys, Hentries, Hsum.
  set (d := fold_left _ _ _) in *. clearbody d.
  assert (Hcat : StockDistribution.category
                   <$> ((λ '(cat, (count, total_value)),
                           StockDistribution.mk cat count total_value) <$> d)
                 = fst <$> d).
  { rewrite <- list_fmap_compose. apply list_fmap_ext. by intros _ [c [n t]] _. }
  split; [by rewrite Hcat |]. split; [| split].
  - intros c. rewrite Hcat, Hkeys, list_elem_of_fmap. split.
    + intros (p & -> & Hp). by exists p.
    + intros (p & Hp & <-). by exists p.
  - intros e ([c [n t]] & -> & Hin)%list_elem_of_fmap.
    rewrite Forall_forall in Hentries. specialize (Hentries _ Hin).
    cbn in Hentries |- *. unfold category_entry in Hentries. by injection Hentries.
  - rewrite py_sum_int_foldr, <- Hsum. f_equal.
    rewrite <- list_fmap_compose. apply list_fmap_ext. by intros _ [c [n t]] _.
Qed.

Lemma get_stock_distribution_groups_witness :
  ∃ result : list StockDistribution.t,
    get_stock_distribution alice shop_db = (Return result, shop_db)
    ∧ StockDistribution.category <$> result = ["Electronics"; "Food"]
    ∧ py_sum_int (StockDistribution.count <$> result) = 2.
Proof.
  destruct (get_stock_distribution_groups alice shop_db)
    as (result & Hrun & _ & _ & _ & Hsum).
  exists result. split; [exact Hrun |]. split; [| exact Hsum].
  injection Hrun as <-. reflexivity.
Defined.

(** ** Listing, creating and deleting products *)

Lemma take_all {A} (n : nat) (l : list A) : (length l ≤ n)%nat → take n l = l.
Proof. intros Hn. by apply take_ge. Qed.

Lemma List_filter_sublist {A} (q : A → bool) (l : list A) : List.filter q l `sublist_of` l.
Proof.
  induction l as [|x l IH]; cbn; [done |].
  destruct (q x); [by apply sublist_skip | by apply sublist_cons].
Qed.

Lemma List_filter_andb {A} (q1 q2 : A → bool) (l : list A) :
  List.filter q2 (List.filter q1 l) = List.filter (λ x, q1 x && q2 x) l.
Proof.
  induction l as [|x l IH]; cbn; [done |].
  destruct (q1 x); cbn; [destruct (q2 x) |]; by rewrite IH.
Qed.

(** X14: the list returned by [get_products] holds at most 1000
    products, all of them stored, in stored order; with a non-empty
    [category] they all have that category; and on a store of at most 1000
    products it is exactly the stored products that match the category
    and, when [low_stock] is true, are low on stock. *)
Theorem get_products_listing (category : option string) (low_stock : option bool)
    (current_user : User.t) (db : DB) :
  ∃ result : list Product.t,
    get_products category low_stock current_user db = (Return result, db)
    ∧ result `sublist_of` products db
    ∧ (length result ≤ 1000)%nat
    ∧ (∀ c : string,
         category = Some c → c ≠ "" →
         ∀ p : Product.t, p ∈ result → Product.category p = c)
    ∧ ((length (products db) ≤ 1000)%nat →
       result
       = List.filter
           (λ p, products_query category p
                 && (if truthy_bool low_stock then low_stock_p p else true))
           (products db)).
Proof.
  eexists. split; [unfold get_products; run_handler; reflexivity |].
  assert (Hfetched : take 1000 (List.filter (products_query category) (products db))
                     `sublist_of` products db).
  { etrans; [apply sublist_take | apply List_filter_sublist]. }
  assert (Hcap : (length (take 1000 (List.filter (products_query category) (products db)))
                  ≤ 1000)%nat).
  { rewrite length_take. lia. }
  split; [| split; [| split]].
  - destruct (truthy_bool low_stock); [| done].
    etrans; [apply List_filter_sublist | done].
  - destruct (truthy_bool low_stock); [| done].
    etrans; [apply sublist_length, List_filter_sublist | done].
  - intros c -> Hc p Hp.
    assert (Hin : p ∈ List.filter (products_query (Some c)) (products db)).
    { eapply elem_of_sublist; [exact Hp |].
      destruct (truthy_bool low_stock);
        [etrans; [apply List_filter_sublist |] |]; apply sublist_take. }
    apply elem_of_List_filter in Hin as [_ Hq].
    unfold products_query in Hq. cbn in Hq.
    destruct (String.eqb_spec c ""); [done |]. cbn in Hq. by apply String.eqb_eq.
  - intros Hsmall. rewrite take_all.
    2:{ etrans; [apply sublist_length, List_filter_sublist | done]. }
    destruct (truthy_bool low_stock).
    + apply List_filter_andb.
    + apply List.filter_ext. intros p. by rewrite andb_true_r.
Qed.

Lemma get_products_listing_witness :
  ∃ result : list Product.t,
    get_products (Some "Food") None alice shop_db = (Return result, shop_db)
    ∧ result = [beans].
Proof.
  destruct (get_products_listing (Some "Food") None alice shop_db)
    as (result & Hrun & _ & _ & _ & Hexact).
  exists result. split; [exact Hrun |]. apply Hexact. cbn. lia.
Defined.

(** A product with a free SKU and integers of at most 64 bits is stored. *)
Lemma create_product_stores (env : Env) (product_data : ProductCreate.t)
    (current_user : User.t) (db : DB) :
  (∀ p, p ∈ products db → Product.sku p ≠ ProductCreate.sku product_data) →
  int64 (ProductCreate.quantity product_data)
  && int64 (ProductCreate.reorder_level product_data) = true →
  create_product env product_data current_user db
  = (Return
       (Product.mk (uuid4 env 0)
          (ProductCreate.name product_data) (ProductCreate.sku product_data)
          (ProductCreate.category product_data) (ProductCreate.quantity product_data)
          (ProductCreate.unit_price product_data) (ProductCreate.reorder_level product_data)
          (ProductCreate.description product_data) (utcnow env 0) (utcnow env 1)),
     mkDB (users db) (categories db)
       (products db
        ++ [Product.mk (uuid4 env 0)
              (ProductCreate.name product_data) (ProductCreate.sku product_data)
              (ProductCreate.category product_data) (ProductCreate.quantity product_data)
              (ProductCreate.unit_price product_data)
              (ProductCreate.reorder_level product_data)
              (ProductCreate.description product_data) (utcnow env 0) (utcnow env 1)])).
Proof.
  intros Hsku Hbson. unfold create_product. run_handler.
  rewrite find_no_match.
  2:{ intros p Hp. by apply String.eqb_neq, Hsku. }
  unfold bson_Product. cbn [Product.quantity Product.reorder_level]. by rewrite Hbson.
Qed.

(** X15: creating a product and deleting it by the returned id gives
    back the store as it was, when the SKU is free, the quantity and the
    reorder level fit in 64 bits and the id drawn is not in use. *)
Theorem create_then_delete_restores (env : Env) (product_data : ProductCreate.t)
    (current_user current_user' : User.t) (db : DB) :
  (∀ p, p ∈ products db → Product.sku p ≠ ProductCreate.sku product_data) →
  int64 (ProductCreate.quantity product_data)
  && int64 (ProductCreate.reorder_level product_data) = true →
  (∀ p, p ∈ products db → Product.id p ≠ uuid4 env 0) →
  ∃ (product : Product.t) (db' : DB),
    create_product env product_data current_user db = (Return product, db')
    ∧ product ∈ products db'
    ∧ delete_product (Product.id product) current_user' db'
      = (Return "Product deleted successfully", db).
Proof.
  intros Hsku Hbson Hid. do 2 eexists. split; [by apply create_product_stores |].
  cbn [products Product.id]. split; [apply elem_of_app; right; by left |].
  assert (Hothers : Forall (λ p, String.eqb (Product.id p) (uuid4 env 0) = false)
                      (products db)).
  { apply Forall_forall. intros p Hp. by apply String.eqb_neq, Hid. }
  unfold delete_product. run_handler.
  rewrite find_split_Some by (done || apply String.eqb_refl).
  rewrite delete_first_split by (done || apply String.eqb_refl).
  cbn. by rewrite app_nil_r, mkDB_eta.
Qed.

Lemma create_then_delete_restores_witness :
  ∃ (product : Product.t) (db' : DB),
    create_product toy_env (ProductCreate.parse "Tablet" "ELEC-004" "Electronics" 3 199 None None)
      alice shop_db
    = (Return product, db')
    ∧ product ∈ products db'
    ∧ delete_product (Product.id product) alice db'
      = (Return "Product deleted successfully", shop_db).
Proof.
  apply create_then_delete_restores; [| reflexivity |];
    intros p Hp; apply list_elem_of_In in Hp; destruct Hp as [<- | [<- | []]]; discriminate.
Defined.

(** X18: once deleted, a product is gone when ids are distinct: no
    stored product has its id, and a second [delete_product] or an
    [update_product] on that id raises 404 "Product not found". *)
Theorem deleted_product_is_gone (env : Env) (product_id : string)
    (product_data : ProductUpdate.t) (current_user : User.t) (db : DB) (old : Product.t) :
  NoDup (Product.id <$> products db) →
  List.find (λ p, String.eqb (Product.id p) product_id) (products db) = Some old →
  (∀ p, p ∈ products (snd (delete_product product_id current_user db)) →
        Product.id p ≠ product_id)
  ∧ delete_product product_id current_user (snd (delete_product product_id current_user db))
    = (Raise (HTTPException 404 "Product not found"),
       snd (delete_product product_id current_user db))
  ∧ update_product env product_id product_data current_user
      (snd (delete_product product_id current_user db))
    = (Raise (HTTPException 404 "Product not found"),
       snd (delete_product product_id current_user db)).
Proof.
  intros Hnodup Hfind.
  destruct (find_Some_split _ _ _ Hfind) as (l1 & l2 & Hl & Hl1 & Hold).
  apply String.eqb_eq in Hold.
  assert (Hdb : snd (delete_product product_id current_user db)
                = mkDB (users db) (categories db) (l1 ++ l2)).
  { unfold delete_product. run_handler. rewrite Hfind. cbn.
    by rewrite Hl, delete_first_split by (done || by apply String.eqb_eq). }
  rewrite Hdb.
  assert (Hgone : ∀ p, p ∈ l1 ++ l2 → Product.id p ≠ product_id).
  { intros p Hp. rewrite <- Hold. rewrite Hl in Hnodup.
    by apply (NoDup_fmap_split_others Product.id l1 l2 old p). }
  assert (Hnone : Forall (λ p, String.eqb (Product.id p) product_id = false) (l1 ++ l2)).
  { apply Forall_forall. intros p Hp. by apply String.eqb_neq, Hgone. }
  split; [done |]. split.
  - unfold delete_product. run_handler.
    by rewrite (proj2 (find_None_Forall _ _) Hnone), delete_first_no_match.
  - unfold update_product. run_handler.
    by rewrite (proj2 (find_None_Forall _ _) Hnone).
Qed.

Lemma deleted_product_is_gone_witness :
  delete_product "p2" alice (snd (delete_product "p2" alice shop_db))
  = (Raise (HTTPException 404 "Product not found"), mkDB [alice_doc] [] [laptop]).
Proof.
  apply (deleted_product_is_gone toy_env "p2"
           (ProductUpdate.mk None None None None None None None) alice shop_db beans).
  - cbn. apply NoDup_ListNoDup. repeat constructor; cbn; intuition discriminate.
  - reflexivity.
Defined.

(** X19: a product created with a free SKU and a quantity and reorder
    level that fit in 64 bits is appended to the unfiltered listing as long
    as the store held fewer than 1000 products; from 1000 stored products on
    it is stored but the listing does not change. *)
Theorem created_product_listed_up_to_cap (env : Env) (product_data : ProductCreate.t)
    (current_user current_user' : User.t) (db : DB) :
  (∀ p, p ∈ products db → Product.sku p ≠ ProductCreate.sku product_data) →
  int64 (ProductCreate.quantity product_data)
  && int64 (ProductCreate.reorder_level product_data) = true →
  ∃ (product : Product.t) (db' : DB),
    create_product env product_data current_user db = (Return product, db')
    ∧ products db' = products db ++ [product]
    ∧ ((length (products db) < 1000)%nat →
       get_products None None current_user' db' = (Return (products db ++ [product]), db'))
    ∧ ((1000 ≤ length (products db))%nat →
       fst (get_products None None current_user' db')
       = fst (get_products None None current_user' db)).
Proof.
  intros Hsku Hbson. do 2 eexists. split; [by apply create_product_stores |].
  split; [done |]. split.
  - intros Hroom. unfold get_products. run_handler. cbn.
    rewrite filter_true, take_all; [done |]. rewrite length_app. cbn. lia.
  - intros Hfull. unfold get_products. run_handler. cbn.
    by rewrite !filter_true, take_app_le.
Qed.

Lemma created_product_listed_up_to_cap_witness :
  ∃ (product : Product.t) (db' : DB),
    create_product toy_env (ProductCreate.parse "Tablet" "ELEC-004" "Electronics" 3 199 None None)
      alice shop_db
    = (Return product, db')
    ∧ get_products None None alice db' = (Return [laptop; beans; product], db').
Proof.
  destruct (created_product_listed_up_to_cap toy_env
              (ProductCreate.parse "Tablet" "ELEC-004" "Electronics" 3 199 None None)
              alice alice shop_db)
    as (product & db' & Hrun & _ & Hroom & _).
  - intros p Hp. apply list_elem_of_In in Hp. destruct Hp as [<- | [<- | []]]; discriminate.
  - reflexivity.
  - exists product, db'. split; [exact Hrun |]. apply Hroom. cbn. lia.
Defined.

(** ** The dashboard and the listing; registration and login *)

(** X17: the dashboard agrees with the listing and the distribution:
    [total_products] is the length of the unfiltered listing,
    [low_stock_count] the length of the low-stock listing, [total_quantity]
    the sum of the listed quantities, and the counts of the stock
    distribution add up to [total_products]. *)
Theorem dashboard_agrees_with_listing (env : Env) (current_user : User.t) (db : DB) :
  ∃ (stats : DashboardStats.t) (listed low : list Product.t)
    (distribution : list StockDistribution.t),
    get_dashboard_stats env current_user db = (Return stats, db)
    ∧ get_products None None current_user db = (Return listed, db)
    ∧ get_products None (Some true) current_user db = (Return low, db)
    ∧ get_stock_distribution current_user db = (Return distribution, db)
    ∧ DashboardStats.total_products stats = Z.of_nat (length listed)
    ∧ DashboardStats.low_stock_count stats = Z.of_nat (length low)
    ∧ DashboardStats.total_quantity stats = py_sum_int (Product.quantity <$> listed)
    ∧ py_sum_int (StockDistribution.count <$> distribution)
      = DashboardStats.total_products stats.
Proof.
  do 4 eexists.
  split; [unfold get_dashboard_stats; run_handler; reflexivity |].
  split; [unfold get_products; run_handler; reflexivity |].
  split; [unfold get_products; run_handler; reflexivity |].
  split; [unfold get_stock_distribution; run_handler; reflexivity |].
  cbn [DashboardStats.total_products DashboardStats.low_stock_count
       DashboardStats.total_quantity products_query truthy_str truthy_bool].
  rewrite !filter_true, py_sum_int_ones.
  repeat (split; [done |]).
  destruct (distribution_of_fold (take 1000 (products db)) [] [])
    as (_ & _ & _ & Hsum).
  { split; [constructor |]. split; [done |]. split; [constructor | done]. }
  cbn [app] in Hsum. rewrite py_sum_int_foldr, <- Hsum. f_equal.
  rewrite <- list_fmap_compose. apply list_fmap_ext. by intros _ [c [n t]] _.
Qed.

Section Accounts.
Variable os_environ : string → option string.
Variable pwd_context : CryptContext.

(** X16: after a registration, a login with the same email and
    password succeeds and returns the registered user, for a password
    context whose [verify] accepts the hashes it makes. *)
Theorem register_then_login (env env' : Env) (user_data : UserCreate.t) (db : DB) :
  (∀ u : UserDoc.t, u ∈ users db → UserDoc.email u ≠ UserCreate.email user_data) →
  verify pwd_context (UserCreate.password user_data)
    (hash pwd_context (gensalt env 0) (UserCreate.password user_data)) = true →
  ∃ (registered logged_in : Token.t) (db' : DB),
    register os_environ pwd_context env user_data db = (Return registered, db')
    ∧ login os_environ pwd_context env'
        (UserLogin.mk (UserCreate.email user_data) (UserCreate.password user_data)) db'
      = (Return logged_in, db')
    ∧ Token.user logged_in = Token.user registered
    ∧ User.email (Token.user logged_in) = UserCreate.email user_data.
Proof.
  intros Hfresh Hverify. do 3 eexists. split.
  { unfold register. run_handler. rewrite find_no_match; [reflexivity |].
    intros u Hu. by apply String.eqb_neq, Hfresh. }
  split.
  - unfold login, verify_password, get_password_hash. run_handler.
    cbn [UserLogin.email UserLogin.password].
    rewrite find_app_fresh; [| | apply String.eqb_refl].
    + cbn [UserDoc.password_hash User.id User.email User.name User.created_at].
      rewrite Hverify. reflexivity.
    + intros u Hu. by apply String.eqb_neq, Hfresh.
  - split; reflexivity.
Qed.
End Accounts.

Lemma register_then_login_witness :
  ∃ (registered logged_in : Token.t) (db' : DB),
    register no_environ toy_context toy_env
      (UserCreate.mk "bob@example.com" "builder" "Bob") shop_db
    = (Return registered, db')
    ∧ login no_environ toy_context (after_clock 2 toy_env)
        (UserLogin.mk "bob@example.com" "builder") db'
      = (Return logged_in, db')
    ∧ Token.user logged_in = Token.user registered
    ∧ User.email (Token.user logged_in) = "bob@example.com".
Proof.
  apply (register_then_login no_environ toy_context toy_env (after_clock 2 toy_env)
           (UserCreate.mk "bob@example.com" "builder" "Bob") shop_db).
  - intros u Hu. apply list_elem_of_In in Hu. destruct Hu as [<- | []]. discriminate.
  - reflexivity.
Defined.
